(** * results-requests/compare.py: the benchmark report renderer

    A shallow embedding of the script, statement by statement, in a state
    and exception monad, followed by the properties of its aggregation
    pass, of its chart and of its failure behaviour.

    - Python objects read from the JSON files are a small inductive type;
      Python [float] is IEEE binary64 (Rocq's primitive floats), Python
      [int] is [Z].
    - The file system is a function from file names to what
      [json.load(open(name))] finds there.
    - matplotlib is modelled as a recorder: the two axes keep the bars, the
      ticks and the text labels the script hands to them. The rectangles of
      a bar call are those [Axes.bar] builds: the heights converted and
      gathered in one numpy array, the width recomputed from the first
      position. What the library does when it lays out and draws the figure
      is not modelled. *)

From Stdlib Require Import ZArith String Ascii List Lia Bool.
From Stdlib Require Import Floats.PrimFloat Floats.SpecFloat Floats.FloatOps.
From Stdlib Require Import Numbers.Cyclic.Int63.Uint63.
From Stdlib Require Import Decimal DecimalString.
From Stdlib Require DecimalPos DecimalZ.
From Stdlib Require Floats.FloatAxioms.
From stdpp Require Import gmap strings list.

Local Open Scope string_scope.
Local Open Scope list_scope.
Local Open Scope Z_scope.
Set Warnings "-register-all,-inexact-float".

(** ** Python objects and the built-in operations the script applies *)

Module Py.

(** What [json.load] can return. *)
Inductive value : Type :=
| VNone
| VBool (b : bool)
| VInt (z : Z)
| VFloat (f : float)
| VStr (s : string)
| VList (l : list value)
| VDict (m : gmap string value).

(** The exceptions that can end the run. [PlotError] is raised by the
    model of the plotting library when a bar height is not a real number:
    what matplotlib does with such a height is not described here, and no
    property below depends on it. *)
Inductive exn : Type :=
| FileNotFoundError (filename : string)
| PermissionError (filename : string)
| JSONDecodeError (filename : string)
| KeyError (key : string)
| IndexError
| TypeError
| ValueError
| OverflowError
| PlotError.

Definition result (A : Type) : Type := exn + A.

(** [obj[key]] for a string key. *)
Definition getitem (obj : value) (key : string) : result value :=
  match obj with
  | VDict m =>
      match m !! key with
      | Some v => inr v
      | None => inl (KeyError key)
      end
  | _ => inl TypeError
  end.

(** [lst[i]] on a Python list of file names, [i] non-negative. *)
Definition list_getitem {A : Type} (lst : list A) (i : nat) : result A :=
  match lst !! i with
  | Some a => inr a
  | None => inl IndexError
  end.

(** [n] copies of a string, one after the other. *)
Fixpoint str_repeat (s : string) (n : nat) : string :=
  match n with
  | O => ""
  | S n' => String.append s (str_repeat s n')
  end.

Fixpoint list_repeat {A : Type} (l : list A) (n : nat) : list A :=
  match n with
  | O => []
  | S n' => l ++ list_repeat l n'
  end.

(** A Python [int] converted to [float]: nearest binary64, ties to even;
    [None] when the integer is too large. *)
Definition float_of_int (z : Z) : option float :=
  match binary_normalize prec emax z 0 false with
  | S754_infinity _ => None
  | sf => Some (SF2Prim sf)
  end.

(** The float of a small non-negative integer literal. *)
Definition float_of_lit (z : Z) : float := of_uint63 (Uint63.of_Z z).

(** [obj * n] for a non-negative [int] literal [n]. *)
Definition mul_int (obj : value) (n : Z) : result value :=
  match obj with
  | VInt z => inr (VInt (z * n))
  | VBool b => inr (VInt ((if b then 1 else 0) * n))
  | VFloat f => inr (VFloat (PrimFloat.mul f (float_of_lit n)))
  | VStr s => inr (VStr (str_repeat s (Z.to_nat n)))
  | VList l => inr (VList (list_repeat l (Z.to_nat n)))
  | VNone | VDict _ => inl TypeError
  end.

(** A real number: a Python [int] or [float]. numpy keeps bar heights as
    64-bit scalars of the same value; [int] and [format] treat those as
    they treat the Python numbers. *)
Inductive number : Type :=
| NInt (z : Z)
| NFloat (f : float).

(** [int(x)]: a float is truncated toward zero; [nan] and the infinities
    are refused. *)
Definition trunc_finite (s : bool) (m : positive) (e : Z) : Z :=
  let a := if 0 <=? e then Z.pos m * 2 ^ e else Z.pos m / 2 ^ (- e) in
  if s then - a else a.

Definition int (x : number) : result Z :=
  match x with
  | NInt z => inr z
  | NFloat f =>
      match Prim2SF f with
      | S754_zero _ => inr 0
      | S754_finite s m e => inr (trunc_finite s m e)
      | S754_infinity _ => inl OverflowError
      | S754_nan => inl ValueError
      end
  end.

(** The decimal digits of a natural number, most significant first. *)
Definition digits (n : N) : list ascii :=
  list_ascii_of_string (NilZero.string_of_uint (N.to_uint n)).

(** Commas every three digits, on the digits least significant first. *)
Fixpoint group3 (ds : list ascii) : list ascii :=
  match ds with
  | a :: b :: c :: ((_ :: _) as rest) =>
      a :: b :: c :: ","%char :: group3 rest
  | _ => ds
  end.

Definition sign_chars (neg : bool) : list ascii :=
  if neg then ["-"%char] else [].

(** [format(z, ",")], the [{...:,}] of an f-string on an [int]. *)
Definition format_comma (z : Z) : string :=
  string_of_list_ascii
    (sign_chars (z <? 0) ++ rev (group3 (rev (digits (Z.abs_N z))))).

(** The multiple of 1/100 nearest to [m * 2^e], ties to the even one. *)
Definition hundredths (m : positive) (e : Z) : Z :=
  if 0 <=? e then 100 * Z.pos m * 2 ^ e
  else
    let den := 2 ^ (- e) in
    let num := 100 * Z.pos m in
    let q := num / den in
    match 2 * (num mod den) ?= den with
    | Lt => q
    | Gt => q + 1
    | Eq => if Z.even q then q else q + 1
    end.

Definition two_digits (r : Z) : list ascii :=
  digits (Z.to_N (r / 10)) ++ digits (Z.to_N (r mod 10)).

Definition fixed2 (neg : bool) (q : Z) : string :=
  string_of_list_ascii
    (sign_chars neg ++ digits (Z.to_N (q / 100)) ++ "."%char
       :: two_digits (q mod 100)).

(** [format(f, ".2f")] on a float. *)
Definition format_2f_float (f : float) : string :=
  match Prim2SF f with
  | S754_nan => "nan"
  | S754_infinity s => if s then "-inf" else "inf"
  | S754_zero s => fixed2 s 0
  | S754_finite s m e => fixed2 s (hundredths m e)
  end.

(** [float(x)] *)
Definition float_ (x : number) : result float :=
  match x with
  | NFloat f => inr f
  | NInt z =>
      match float_of_int z with
      | Some f => inr f
      | None => inl OverflowError
      end
  end.

(** [format(x, ".2f")], the [{...:.2f}] of an f-string: an [int] is
    converted to [float] first. *)
Definition format_2f (x : number) : result string :=
  match float_ x with
  | inr f => inr (format_2f_float f)
  | inl e => inl e
  end.

End Py.

Export Py.

(** ** The world the script runs in *)

(** What [json.load(open(filename))] meets at a file name. *)
Inductive file : Type :=
| NoFile                              (* nothing at this path *)
| NoAccess                            (* there, but cannot be opened *)
| Contents (parsed : option value).   (* [None]: the text is not JSON *)

Definition filesystem : Type := string -> file.

(** One bar of a bar container: [get_x], [get_width], [get_height]. *)
Record rect : Type := Rect {
  get_x : float;
  get_width : float;
  get_height : number
}.

(** A text label placed on an axes. *)
Record text : Type := Text {
  text_x : float;
  text_y : number;
  text_s : string;
  text_ha : string;
  text_va : string
}.

(** An axes: what the script has told it so far. [containers] holds one
    entry per [bar] call, in call order, with the series label. *)
Record axes : Type := Axes {
  containers : list (string * list rect);
  ylabel : string;
  title : string;
  xticks : list Z;
  xticklabels : list string;
  legend : bool;
  texts : list text
}.

Definition new_axes : axes := Axes [] "" "" [] [] false [].

(** What the run does to the outside world, in order. *)
Inductive event : Type :=
| EOpen (filename : string)
| ESavefig (filename : string) (dpi : Z) (bbox_inches : string)
           (figsize : Z * Z) (ax1 ax2 : axes)
| EPrint (line : string).

(** The module-level variables of the script and the event log. *)
Record state : Type := State {
  rps_no_schema : list value;
  rps_schema : list value;
  latency_no_schema : list value;
  latency_schema : list value;
  framework_names : list string;
  figsize : Z * Z;
  ax1 : axes;
  ax2 : axes;
  events : list event
}.

(** ** A state and exception monad for the statements of the script *)

Definition M (A : Type) : Type := state -> result A * state.

Definition ret {A : Type} (a : A) : M A := fun st => (inr a, st).

Definition raise {A : Type} (e : exn) : M A := fun st => (inl e, st).

Definition bind {A B : Type} (m : M A) (k : A -> M B) : M B :=
  fun st =>
    match m st with
    | (inr a, st') => k a st'
    | (inl e, st') => (inl e, st')
    end.

Definition lift {A : Type} (r : result A) : M A :=
  match r with
  | inr a => ret a
  | inl e => raise e
  end.

Definition get : M state := fun st => (inr st, st).

Definition modify (f : state -> state) : M unit := fun st => (inr tt, f st).

Declare Scope py_scope.
Delimit Scope py_scope with py.
Notation "x <- m ;; k" := (bind m (fun x => k))
  (at level 100, m at next level, right associativity) : py_scope.
Notation "m ;; k" := (bind m (fun _ => k))
  (at level 100, right associativity) : py_scope.
Local Open Scope py_scope.

(** [for a in l: body a] *)
Fixpoint for_each {A : Type} (l : list A) (body : A -> M unit) : M unit :=
  match l with
  | [] => ret tt
  | a :: l' => body a ;; for_each l' body
  end.

Definition log (e : event) (st : state) : state :=
  State (rps_no_schema st) (rps_schema st) (latency_no_schema st)
        (latency_schema st) (framework_names st) (figsize st)
        (ax1 st) (ax2 st) (events st ++ [e]).

Definition emit (e : event) : M unit := modify (log e).

(** The five [append] statements of the aggregation loop. *)
Definition append_rps_no_schema (v : value) : M unit :=
  modify (fun st =>
    State (rps_no_schema st ++ [v]) (rps_schema st) (latency_no_schema st)
          (latency_schema st) (framework_names st) (figsize st)
          (ax1 st) (ax2 st) (events st)).

Definition append_rps_schema (v : value) : M unit :=
  modify (fun st =>
    State (rps_no_schema st) (rps_schema st ++ [v]) (latency_no_schema st)
          (latency_schema st) (framework_names st) (figsize st)
          (ax1 st) (ax2 st) (events st)).

Definition append_latency_no_schema (v : value) : M unit :=
  modify (fun st =>
    State (rps_no_schema st) (rps_schema st) (latency_no_schema st ++ [v])
          (latency_schema st) (framework_names st) (figsize st)
          (ax1 st) (ax2 st) (events st)).

Definition append_latency_schema (v : value) : M unit :=
  modify (fun st =>
    State (rps_no_schema st) (rps_schema st) (latency_no_schema st)
          (latency_schema st ++ [v]) (framework_names st) (figsize st)
          (ax1 st) (ax2 st) (events st)).

Definition append_framework_names (name : string) : M unit :=
  modify (fun st =>
    State (rps_no_schema st) (rps_schema st) (latency_no_schema st)
          (latency_schema st) (framework_names st ++ [name]) (figsize st)
          (ax1 st) (ax2 st) (events st)).

Definition on_ax1 (f : axes -> axes) (st : state) : state :=
  State (rps_no_schema st) (rps_schema st) (latency_no_schema st)
        (latency_schema st) (framework_names st) (figsize st)
        (f (ax1 st)) (ax2 st) (events st).

Definition on_ax2 (f : axes -> axes) (st : state) : state :=
  State (rps_no_schema st) (rps_schema st) (latency_no_schema st)
        (latency_schema st) (framework_names st) (figsize st)
        (ax1 st) (f (ax2 st)) (events st).

(** A method call on [ax1], on [ax2]. *)
Definition set_ax1 (f : axes -> axes) : M unit := modify (on_ax1 f).

Definition set_ax2 (f : axes -> axes) : M unit := modify (on_ax2 f).

(** ** The script *)

Section Script.

Variable fs : filesystem.

(** [read_json_file]: open the file and parse it. *)
Definition read_json_file (filename : string) : M value :=
  emit (EOpen filename) ;;
  match fs filename with
  | NoFile => raise (FileNotFoundError filename)
  | NoAccess => raise (PermissionError filename)
  | Contents None => raise (JSONDecodeError filename)
  | Contents (Some data) => ret data
  end.

(** The body of [for framework, files in frameworks.items()]. *)
Definition loop_body (entry : string * list string) : M unit :=
  let '(framework, files) := entry in
  append_framework_names framework ;;
  (* No schema *)
  f0 <- lift (list_getitem files 0) ;;
  data <- read_json_file f0 ;;
  summary <- lift (getitem data "summary") ;;
  rps <- lift (getitem summary "requestsPerSec") ;;
  append_rps_no_schema rps ;;
  summary <- lift (getitem data "summary") ;;
  average <- lift (getitem summary "average") ;;
  ms <- lift (mul_int average 1000) ;;
  append_latency_no_schema ms ;;
  (* With schema *)
  f1 <- lift (list_getitem files 1) ;;
  data <- read_json_file f1 ;;
  summary <- lift (getitem data "summary") ;;
  rps <- lift (getitem summary "requestsPerSec") ;;
  append_rps_schema rps ;;
  summary <- lift (getitem data "summary") ;;
  average <- lift (getitem summary "average") ;;
  ms <- lift (mul_int average 1000) ;;
  append_latency_schema ms.

(** The aggregation pass over a configuration. *)
Definition collect (cfg : list (string * list string)) : M unit :=
  for_each cfg loop_body.

End Script.

(** [frameworks]: a dict literal, iterated in insertion order. *)
Definition frameworks : list (string * list string) :=
  [ ("Bun", ["bun_no_schema.json"; "bun_schema.json"]);
    ("Elysia", ["elysia_no_schema.json"; "elysia_schema.json"]);
    ("Encore", ["encore_no_schema.json"; "encore_schema.json"]);
    ("Express", ["express_no_schema.json"; "express_schema.json"]);
    ("Fastify", ["fastify_no_schema.json"; "fastify_schema.json"]);
    ("Fastify v5", ["fastify-v5_no_schema.json"; "fastify-v5_schema.json"]);
    ("Hono", ["hono_no_schema.json"; "hono_schema.json"]) ].

(** ** The plotting library, as far as the script uses it *)

Module Plt.

(** numpy's 64-bit integers. *)
Definition in_int64 (z : Z) : bool := (- 2 ^ 63 <=? z) && (z <? 2 ^ 63).

(** An [int64] converted to [float64]: the nearest one, ties to even. *)
Definition float_of_int64 (z : Z) : float :=
  SF2Prim (binary_normalize prec emax z 0 false).

(** One height as [ax.bar] first converts it: [(0 + h) - 0], the bars
    standing on the numpy integer zero. A Python [int] (a [bool] counts as
    one) becomes an [int64], and one that does not fit raises
    [OverflowError]; a [float] becomes a [float64], a NaN and the infinities
    included, and [-0.0] comes out as [0.0]. *)
Definition number_of (v : value) : result number :=
  match v with
  | VInt z => if in_int64 z then inr (NInt z) else inl OverflowError
  | VBool b => inr (NInt (if b then 1 else 0))
  | VFloat f => inr (NFloat (PrimFloat.sub (PrimFloat.add 0%float f) 0%float))
  | _ => inl PlotError
  end.

(** The heights converted one after the other; the first one that cannot be
    converted decides the exception. *)
Fixpoint numbers_of (heights : list value) : result (list number) :=
  match heights with
  | [] => inr []
  | h :: heights' =>
      match number_of h with
      | inl e => inl e
      | inr n =>
          match numbers_of heights' with
          | inl e => inl e
          | inr ns => inr (n :: ns)
          end
      end
  end.

Definition is_float64 (n : number) : bool :=
  match n with
  | NFloat _ => true
  | NInt _ => false
  end.

Definition as_float64 (n : number) : number :=
  match n with
  | NFloat f => NFloat f
  | NInt z => NFloat (float_of_int64 z)
  end.

(** The converted heights gathered in one numpy array: an array of
    [float64] as soon as one of them is a float, of [int64] otherwise. *)
Definition gather (ns : list number) : list number :=
  if existsb is_float64 ns then map as_float64 ns else ns.

(** The width as [ax.bar] recomputes it from the first position:
    [(x0 + width) - x0]. (The positions are never empty here: the
    configuration is not.) *)
Definition bar_width (xs : list float) (w : float) : float :=
  match xs with
  | x0 :: _ => PrimFloat.sub (PrimFloat.add x0 w) x0
  | [] => w
  end.

(** One rectangle per position and height, which must pair up: bars are
    centred on their x position (the default alignment), so a bar starts
    half a width to the left of it. *)
Fixpoint rects (xs : list float) (ns : list number) (w : float)
  : result (list rect) :=
  match xs, ns with
  | [], [] => inr []
  | x :: xs', n :: ns' =>
      match rects xs' ns' w with
      | inr rs =>
          inr (Rect (PrimFloat.sub x (PrimFloat.div w (float_of_lit 2))) w n
                 :: rs)
      | inl e => inl e
      end
  | _, _ => inl ValueError
  end.

(** The rectangles of [ax.bar(xs, heights, width)]. *)
Definition bar_rects (xs : list float) (heights : list value) (w : float)
  : result (list rect) :=
  match numbers_of heights with
  | inl e => inl e
  | inr ns => rects xs (gather ns) (bar_width xs w)
  end.

Definition add_container (label : string) (rs : list rect) (a : axes)
  : axes :=
  Axes (containers a ++ [(label, rs)]) (ylabel a) (title a) (xticks a)
       (xticklabels a) (legend a) (texts a).

Definition with_ylabel (s : string) (a : axes) : axes :=
  Axes (containers a) s (title a) (xticks a) (xticklabels a) (legend a)
       (texts a).

Definition with_title (s : string) (a : axes) : axes :=
  Axes (containers a) (ylabel a) s (xticks a) (xticklabels a) (legend a)
       (texts a).

Definition with_xticks (x : list Z) (a : axes) : axes :=
  Axes (containers a) (ylabel a) (title a) x (xticklabels a) (legend a)
       (texts a).

Definition with_xticklabels (l : list string) (a : axes) : axes :=
  Axes (containers a) (ylabel a) (title a) (xticks a) l (legend a)
       (texts a).

Definition with_legend (a : axes) : axes :=
  Axes (containers a) (ylabel a) (title a) (xticks a) (xticklabels a) true
       (texts a).

Definition add_text (t : text) (a : axes) : axes :=
  Axes (containers a) (ylabel a) (title a) (xticks a) (xticklabels a)
       (legend a) (texts a ++ [t]).

(** [ax.bar(xs, heights, width, label=...)] on the axes behind [set_ax]:
    the container is added to the axes and returned. *)
Definition bar (set_ax : (axes -> axes) -> M unit) (xs : list float)
    (heights : list value) (w : float) (label : string) : M (list rect) :=
  rs <- lift (bar_rects xs heights w) ;;
  set_ax (add_container label rs) ;;
  ret rs.

(** [plt.subplots(2, 1, figsize=...)]: a figure with two empty axes. *)
Definition subplots (size : Z * Z) : M unit :=
  modify (fun st =>
    State (rps_no_schema st) (rps_schema st) (latency_no_schema st)
          (latency_schema st) (framework_names st) size
          new_axes new_axes (events st)).

(** [plt.tight_layout()] re-spaces the panels: nothing that the axes record
    changes. What can go wrong inside the library while it lays out or
    draws the figure is not described: a run that ends normally here has
    passed every statement of the script up to the drawing. *)
Definition tight_layout : M unit := ret tt.

(** [plt.savefig(filename, dpi=..., bbox_inches=...)]: the call, with the
    figure it is given. As for [tight_layout], a failure of the library
    while drawing is not described. *)
Definition savefig (filename : string) (dpi : Z) (bbox_inches : string)
  : M unit :=
  st <- get ;;
  emit (ESavefig filename dpi bbox_inches (figsize st) (ax1 st) (ax2 st)).

End Plt.

(** [np.arange(n)] *)
Definition arange (n : nat) : list Z := map Z.of_nat (seq 0 n).

(** [x - d] and [x + d] for an integer array [x] and a float [d]. *)
Definition array_sub (x : list Z) (d : float) : list float :=
  map (fun i => PrimFloat.sub (float_of_lit i) d) x.

Definition array_add (x : list Z) (d : float) : list float :=
  map (fun i => PrimFloat.add (float_of_lit i) d) x.

Definition width : float := 0.35%float.

Definition output_file : string := "framework_comparison.png".

(** The label loop of the throughput panel:
    [for bars in [rps1, rps2]: for bar in bars: ax1.text(...)]. *)
Definition label_rps (bar : rect) : M unit :=
  let height := get_height bar in
  let tx := PrimFloat.add (get_x bar) (PrimFloat.div (get_width bar) 2%float) in
  n <- lift (int height) ;;
  set_ax1 (Plt.add_text (Text tx height (format_comma n) "center" "bottom")).

(** The label loop of the latency panel. *)
Definition label_latency (bar : rect) : M unit :=
  let height := get_height bar in
  let tx := PrimFloat.add (get_x bar) (PrimFloat.div (get_width bar) 2%float) in
  s <- lift (format_2f height) ;;
  set_ax2 (Plt.add_text (Text tx height s "center" "bottom")).

(** Everything after the aggregation loop, for the series collected. *)
Definition render : M unit :=
  (* fig, (ax1, ax2) = plt.subplots(2, 1, figsize=(12, 10)) *)
  Plt.subplots (12, 10) ;;
  st <- get ;;
  let x := arange (length (framework_names st)) in
  let half := PrimFloat.div width (float_of_lit 2) in
  (* RPS comparison *)
  rps1 <- Plt.bar set_ax1 (array_sub x half) (rps_no_schema st) width
            "No Schema" ;;
  rps2 <- Plt.bar set_ax1 (array_add x half) (rps_schema st) width
            "With Schema" ;;
  set_ax1 (Plt.with_ylabel "Requests per Second") ;;
  set_ax1 (Plt.with_title
    "Framework Performance Comparison - Requests per Second (Higher is Better)") ;;
  set_ax1 (Plt.with_xticks x) ;;
  set_ax1 (Plt.with_xticklabels (framework_names st)) ;;
  set_ax1 Plt.with_legend ;;
  for_each [rps1; rps2] (fun bars => for_each bars label_rps) ;;
  (* Latency comparison *)
  lat1 <- Plt.bar set_ax2 (array_sub x half) (latency_no_schema st) width
            "No Schema" ;;
  lat2 <- Plt.bar set_ax2 (array_add x half) (latency_schema st) width
            "With Schema" ;;
  set_ax2 (Plt.with_ylabel "Average Latency (ms)") ;;
  set_ax2 (Plt.with_title
    "Framework Performance Comparison - Average Latency (Lower is Better)") ;;
  set_ax2 (Plt.with_xticks x) ;;
  set_ax2 (Plt.with_xticklabels (framework_names st)) ;;
  set_ax2 Plt.with_legend ;;
  for_each [lat1; lat2] (fun bars => for_each bars label_latency) ;;
  (* Adjust layout and save *)
  Plt.tight_layout ;;
  Plt.savefig output_file 300 "tight" ;;
  emit (EPrint "Chart has been saved as 'framework_comparison.png'").

Definition script (fs : filesystem) (cfg : list (string * list string))
  : M unit :=
  collect fs cfg ;; render.

Definition initial : state := State [] [] [] [] [] (0, 0) new_axes new_axes [].

(** One run of the script in the file system [fs]. *)
Definition run (fs : filesystem) : result unit * state :=
  script fs frameworks initial.

(** ** Reasoning about the monad *)

Lemma bind_inr {A B : Type} (m : M A) (k : A -> M B) st a st1 :
  m st = (inr a, st1) -> bind m k st = k a st1.
Proof. intros H. unfold bind. now rewrite H. Qed.

Lemma bind_inl {A B : Type} (m : M A) (k : A -> M B) st e st1 :
  m st = (inl e, st1) -> bind m k st = (inl e, st1).
Proof. intros H. unfold bind. now rewrite H. Qed.

Lemma bind_inr_inv {A B : Type} (m : M A) (k : A -> M B) st b st' :
  bind m k st = (inr b, st') ->
  exists a st1, m st = (inr a, st1) /\ k a st1 = (inr b, st').
Proof.
  unfold bind. destruct (m st) as [[e|a] st1]; intros H.
  - discriminate.
  - now exists a, st1.
Qed.

Lemma modify_inv (f : state -> state) st u st' :
  modify f st = (inr u, st') -> st' = f st.
Proof. unfold modify. intros H. now inversion H. Qed.

Lemma lift_inr_inv {A : Type} (r : result A) st a st' :
  lift r st = (inr a, st') -> r = inr a /\ st' = st.
Proof. destruct r; simpl; unfold raise, ret; intros H; now inversion H. Qed.

Lemma for_each_app {A : Type} (l1 l2 : list A) (body : A -> M unit) st :
  for_each (l1 ++ l2) body st
  = bind (for_each l1 body) (fun _ => for_each l2 body) st.
Proof.
  revert st. induction l1 as [|a l1 IH]; intros st; simpl.
  - reflexivity.
  - unfold bind. destruct (body a st) as [[e|[]] st1].
    + reflexivity.
    + exact (IH st1).
Qed.

(** Closes the branch of a symbolic run in which an exception was raised. *)
Ltac raised :=
  eexists; split; [reflexivity | cbn; rewrite <- ?app_assoc; reflexivity].

(** ** What one file contributes *)

Section Load.

Variable fs : filesystem.

(** The pair appended for one file: its [summary.requestsPerSec] and its
    [summary.average * 1000]; or the exception that reading it raises. *)
Definition load (filename : string) : result (value * value) :=
  match fs filename with
  | NoFile => inl (FileNotFoundError filename)
  | NoAccess => inl (PermissionError filename)
  | Contents None => inl (JSONDecodeError filename)
  | Contents (Some data) =>
      match getitem data "summary" with
      | inl e => inl e
      | inr summary =>
          match getitem summary "requestsPerSec" with
          | inl e => inl e
          | inr rps =>
              match getitem summary "average" with
              | inl e => inl e
              | inr average =>
                  match mul_int average 1000 with
                  | inl e => inl e
                  | inr ms => inr (rps, ms)
                  end
              end
          end
      end
  end.

(** The state after one complete iteration. *)
Definition after_entry (st : state) (name f0 f1 : string)
    (a b : value * value) : state :=
  State (rps_no_schema st ++ [a.1]) (rps_schema st ++ [b.1])
        (latency_no_schema st ++ [a.2]) (latency_schema st ++ [b.2])
        (framework_names st ++ [name]) (figsize st) (ax1 st) (ax2 st)
        (events st ++ [EOpen f0; EOpen f1]).

Lemma loop_body_spec (name f0 f1 : string) (st : state) :
  match load f0, load f1 with
  | inr a, inr b =>
      loop_body fs (name, [f0; f1]) st
      = (inr tt, after_entry st name f0 f1 a b)
  | inl e, _ =>
      exists st', loop_body fs (name, [f0; f1]) st = (inl e, st')
                  /\ events st' = events st ++ [EOpen f0]
  | inr _, inl e =>
      exists st', loop_body fs (name, [f0; f1]) st = (inl e, st')
                  /\ events st' = events st ++ [EOpen f0; EOpen f1]
  end.
Proof.
  unfold load, loop_body, read_json_file, after_entry, list_getitem.
  unfold bind, append_framework_names, modify, lift, ret, raise, emit, log,
    append_rps_no_schema, append_latency_no_schema, append_rps_schema,
    append_latency_schema; cbn.
  destruct (fs f0) as [| |[d0|]]; cbn; try raised.
  destruct (getitem d0 "summary") as [e|s0]; cbn; [raised|].
  destruct (getitem s0 "requestsPerSec") as [e|r0]; cbn; [raised|].
  destruct (getitem s0 "average") as [e|a0]; cbn; [raised|].
  destruct (mul_int a0 1000) as [e|m0]; cbn; [raised|].
  destruct (fs f1) as [| |[d1|]]; cbn; try raised.
  destruct (getitem d1 "summary") as [e|s1]; cbn; [raised|].
  destruct (getitem s1 "requestsPerSec") as [e|r1]; cbn; [raised|].
  destruct (getitem s1 "average") as [e|a1]; cbn; [raised|].
  destruct (mul_int a1 1000) as [e|m1]; cbn; [raised|].
  now rewrite <- app_assoc.
Qed.

End Load.

(** ** The aggregation pass as a whole *)

(** Every entry of the configuration names exactly two files. *)
Definition well_formed (cfg : list (string * list string)) : Prop :=
  Forall (fun entry => length entry.2 = 2%nat) cfg.

(** The configured files, in the order in which the pass reads them. *)
Definition files_of (cfg : list (string * list string)) : list string :=
  flat_map snd cfg.

(** What the two files of an entry contribute. *)
Definition row : Type := (value * value) * (value * value).

Definition entry_loaded (fs : filesystem) (entry : string * list string)
    (r : row) : Prop :=
  exists f0 f1, entry.2 = [f0; f1] /\ load fs f0 = inr r.1
                /\ load fs f1 = inr r.2.

(** The state after a complete pass that contributed [rows]. *)
Definition after_collect (st : state) (cfg : list (string * list string))
    (rows : list row) : state :=
  State (rps_no_schema st ++ map (fun r : row => r.1.1) rows)
        (rps_schema st ++ map (fun r : row => r.2.1) rows)
        (latency_no_schema st ++ map (fun r : row => r.1.2) rows)
        (latency_schema st ++ map (fun r : row => r.2.2) rows)
        (framework_names st ++ map fst cfg) (figsize st) (ax1 st) (ax2 st)
        (events st ++ map EOpen (files_of cfg)).

(** The pass stopped at the file of index [k], the first one that cannot
    be loaded, with exception [e]. *)
Definition stopped_at (fs : filesystem) (files : list string) (k : nat)
    (e : exn) : Prop :=
  (exists f, files !! k = Some f /\ load fs f = inl e) /\
  forall j g, (j < k)%nat -> files !! j = Some g ->
              exists v, load fs g = inr v.

Lemma after_collect_cons st name f0 f1 a b cfg rows :
  after_collect (after_entry st name f0 f1 a b) cfg rows
  = after_collect st ((name, [f0; f1]) :: cfg) ((a, b) :: rows).
Proof.
  unfold after_collect, after_entry, files_of; cbn.
  now rewrite <- !app_assoc.
Qed.

Lemma collect_spec (fs : filesystem) (cfg : list (string * list string)) :
  well_formed cfg ->
  forall st,
    (exists rows, Forall2 (entry_loaded fs) cfg rows /\
                  collect fs cfg st = (inr tt, after_collect st cfg rows))
    \/
    (exists k e st', stopped_at fs (files_of cfg) k e /\
                     collect fs cfg st = (inl e, st') /\
                     events st'
                     = events st ++ map EOpen (take (S k) (files_of cfg))).
Proof.
  induction 1 as [|[name files] cfg Hlen Hwf IH]; intros st.
  - left. exists []. split; [constructor|].
    unfold after_collect; cbn. rewrite !app_nil_r. now destruct st.
  - cbn in Hlen.
    destruct files as [|f0 [|f1 [|? ?]]]; try discriminate Hlen.
    pose proof (loop_body_spec fs name f0 f1 st) as Hbody.
    unfold collect in *; cbn [for_each].
    destruct (load fs f0) as [e0|a] eqn:H0.
    { right. destruct Hbody as (st' & Hrun & Hev).
      exists 0%nat, e0, st'. split; [|split].
      - split; [exists f0; now split | intros j g Hj; lia].
      - now apply bind_inl.
      - exact Hev. }
    destruct (load fs f1) as [e1|b] eqn:H1.
    { right. destruct Hbody as (st' & Hrun & Hev).
      exists 1%nat, e1, st'. split; [|split].
      - split; [exists f1; now split|].
        intros [|j] g Hj Hg; [|lia].
        cbn in Hg. inversion Hg; subst g. now exists a.
      - now apply bind_inl.
      - exact Hev. }
    rewrite (bind_inr _ _ _ _ _ Hbody).
    destruct (IH (after_entry st name f0 f1 a b))
      as [(rows & Hrows & Hrun) | (k & e & st' & [[f [Hk He]] Hbefore] & Hrun & Hev)].
    + left. exists ((a, b) :: rows). split.
      * constructor; [|exact Hrows]. now exists f0, f1.
      * rewrite Hrun. now rewrite after_collect_cons.
    + right. exists (S (S k)), e, st'. split; [|split].
      * split; [now exists f|].
        intros [|[|j]] g Hj Hg; cbn in Hg.
        -- inversion Hg; subst g. now exists a.
        -- inversion Hg; subst g. now exists b.
        -- apply (Hbefore j g); [lia|exact Hg].
      * exact Hrun.
      * rewrite Hev. cbn. now rewrite <- app_assoc.
Qed.

(** ** The chart *)

(** *** What a bar stands at *)

(** The integer that a value is, if it is one ([True] is 1). *)
Definition whole (v : value) : option Z :=
  match v with
  | VInt z => Some z
  | VBool b => Some (if b then 1 else 0)
  | _ => None
  end.

(** Every value of the series is an integer. *)
Definition all_whole (series : list value) : bool :=
  forallb (fun v => match whole v with Some _ => true | None => false end)
    series.

(** The number [n] at which a value [v] of a series is plotted. A float is
    plotted at [(0 + v) - 0]. An integer, which must fit 64 bits, is plotted
    at itself when every value of the series is an integer, and at the
    nearest float otherwise. *)
Definition stored_as (integers : bool) (v : value) (n : number) : Prop :=
  match v with
  | VFloat f => n = NFloat (PrimFloat.sub (PrimFloat.add 0%float f) 0%float)
  | _ =>
      match whole v with
      | Some z =>
          (- 2 ^ 63 <= z < 2 ^ 63) /\
          n = if integers then NInt z
              else NFloat (SF2Prim (binary_normalize prec emax z 0 false))
      | None => False
      end
  end.

Definition stored (series : list value) (v : value) (n : number) : Prop :=
  stored_as (all_whole series) v n.

(** [(0 + f) - 0] is [f], but for [-0.0], which becomes [0.0]. *)
Lemma zero_add_sub_zero (f : float) :
  Prim2SF (PrimFloat.sub (PrimFloat.add 0%float f) 0%float)
  = match Prim2SF f with
    | S754_zero _ => S754_zero false
    | sf => sf
    end.
Proof.
  rewrite FloatAxioms.sub_spec, FloatAxioms.add_spec.
  change (Prim2SF 0%float) with (S754_zero false).
  unfold FloatAxioms.SF64sub, FloatAxioms.SF64add, SFsub, SFadd.
  destruct (Prim2SF f) as [[]|[]| |[] m e]; reflexivity.
Qed.

Lemma zero_add_sub_zero_same (f : float) :
  Prim2SF f <> S754_zero true ->
  PrimFloat.sub (PrimFloat.add 0%float f) 0%float = f.
Proof.
  intros Hf.
  rewrite <- (FloatAxioms.SF2Prim_Prim2SF f) at 2.
  rewrite <- (FloatAxioms.SF2Prim_Prim2SF
                (PrimFloat.sub (PrimFloat.add 0%float f) 0%float)).
  rewrite zero_add_sub_zero.
  destruct (Prim2SF f) as [[]|[]| |[] m e]; try reflexivity.
  now destruct Hf.
Qed.

Lemma numbers_of_spec (heights : list value) :
  forall ns, Plt.numbers_of heights = inr ns ->
             Forall2 (fun h n => Plt.number_of h = inr n) heights ns.
Proof.
  induction heights as [|h hs IH]; intros ns H; cbn in H.
  - inversion H. constructor.
  - destruct (Plt.number_of h) as [e|n] eqn:Hn; [discriminate H|].
    destruct (Plt.numbers_of hs) as [e|ns'] eqn:Hns; [discriminate H|].
    inversion H; subst ns. constructor; [exact Hn | now apply IH].
Qed.

Lemma number_of_stored (integers : bool) (h : value) (n : number) :
  Plt.number_of h = inr n ->
  stored_as integers h (if integers then n else Plt.as_float64 n).
Proof.
  unfold Plt.number_of, stored_as, Plt.in_int64.
  destruct h as [|b|z|f|s|l|m]; cbn; intros H; try discriminate H.
  - inversion H; subst n. split; [destruct b; lia|]. now destruct integers.
  - destruct (Z.leb_spec (- 2 ^ 63) z), (Z.ltb_spec z (2 ^ 63));
      cbn in H; try discriminate H.
    inversion H; subst n. split; [lia|]. now destruct integers.
  - inversion H; subst n. now destruct integers.
Qed.

Lemma number_of_float64 (h : value) (n : number) :
  Plt.number_of h = inr n ->
  Plt.is_float64 n = match whole h with Some _ => false | None => true end.
Proof.
  unfold Plt.number_of.
  destruct h as [|b|z|f|s|l|m]; cbn; intros H; try discriminate H.
  - now inversion H.
  - destruct (Plt.in_int64 z); [now inversion H | discriminate H].
  - now inversion H.
Qed.

Lemma gather_stored (heights : list value) (ns : list number) :
  Forall2 (fun h n => Plt.number_of h = inr n) heights ns ->
  Forall2 (stored heights) heights (Plt.gather ns).
Proof.
  intros Hall.
  assert (Hkind : existsb Plt.is_float64 ns = negb (all_whole heights)).
  { unfold all_whole. induction Hall as [|h n hs ns Hn _ IH]; cbn;
      [reflexivity|].
    rewrite (number_of_float64 h n Hn), IH. now destruct (whole h). }
  unfold Plt.gather, stored. rewrite Hkind.
  destruct (all_whole heights); cbn.
  - eapply Forall2_impl; [exact Hall|].
    intros h n Hn. exact (number_of_stored true h n Hn).
  - apply Forall2_fmap_r. eapply Forall2_impl; [exact Hall|].
    intros h n Hn. exact (number_of_stored false h n Hn).
Qed.

Lemma rects_spec (w : float) (xs : list float) :
  forall (ns : list number) (rs : list rect),
    Plt.rects xs ns w = inr rs ->
    length rs = length xs /\ length rs = length ns /\
    forall i r, rs !! i = Some r ->
      exists x, xs !! i = Some x /\ ns !! i = Some (get_height r) /\
                get_x r = PrimFloat.sub x (PrimFloat.div w (float_of_lit 2)) /\
                get_width r = w.
Proof.
  induction xs as [|x xs IH]; intros [|n ns] rs H; cbn in H;
    try discriminate H.
  - inversion H; subst rs. repeat split; intros i r Hi; discriminate Hi.
  - destruct (Plt.rects xs ns w) as [e|rs'] eqn:Hrs; [discriminate H|].
    inversion H; subst rs; clear H.
    destruct (IH ns rs' Hrs) as (L1 & L2 & Hall).
    cbn [length]. repeat split; [congruence|congruence|].
    intros [|i] r Hi; cbn in Hi.
    + inversion Hi; subst r. exists x. now repeat split.
    + exact (Hall i r Hi).
Qed.

Lemma bar_rects_spec (w : float) (xs : list float) :
  forall (heights : list value) (rs : list rect),
    Plt.bar_rects xs heights w = inr rs ->
    length rs = length xs /\ length rs = length heights /\
    forall i r, rs !! i = Some r ->
      exists x h, xs !! i = Some x /\ heights !! i = Some h /\
                  stored heights h (get_height r) /\
                  get_x r = PrimFloat.sub x
                              (PrimFloat.div (Plt.bar_width xs w)
                                             (float_of_lit 2)) /\
                  get_width r = Plt.bar_width xs w.
Proof.
  intros heights rs H. unfold Plt.bar_rects in H.
  destruct (Plt.numbers_of heights) as [e|ns] eqn:Hns; [discriminate H|].
  pose proof (gather_stored _ _ (numbers_of_spec _ _ Hns)) as Hst.
  destruct (rects_spec _ _ _ _ H) as (L1 & L2 & Hall).
  pose proof (Forall2_length _ _ _ Hst) as L3.
  repeat split; [exact L1 | congruence |].
  intros i r Hi. destruct (Hall i r Hi) as (x & Hx & Hn & Hgx & Hgw).
  destruct (Forall2_lookup_r _ _ _ _ _ Hst Hn) as (h & Hh & Hs).
  now exists x, h.
Qed.

(** The label the throughput loop writes for a bar, and the one the
    latency loop writes. *)
Definition label_x (bar : rect) : float :=
  PrimFloat.add (get_x bar) (PrimFloat.div (get_width bar) 2%float).

Definition rps_labelled (bar : rect) (t : text) : Prop :=
  exists n, int (get_height bar) = inr n /\
            t = Text (label_x bar) (get_height bar) (format_comma n)
                     "center" "bottom".

Definition latency_labelled (bar : rect) (t : text) : Prop :=
  exists s, format_2f (get_height bar) = inr s /\
            t = Text (label_x bar) (get_height bar) s "center" "bottom".

Definition add_texts (ts : list text) (a : axes) : axes :=
  Axes (containers a) (ylabel a) (title a) (xticks a) (xticklabels a)
       (legend a) (texts a ++ ts).

Lemma on_ax1_id st : on_ax1 (add_texts []) st = st.
Proof.
  destruct st as [? ? ? ? ? ? [] ? ?]; unfold on_ax1, add_texts; cbn.
  now rewrite app_nil_r.
Qed.

Lemma on_ax2_id st : on_ax2 (add_texts []) st = st.
Proof.
  destruct st as [? ? ? ? ? ? ? [] ?]; unfold on_ax2, add_texts; cbn.
  now rewrite app_nil_r.
Qed.

Lemma label_rps_loop (bars : list rect) :
  forall st st',
    for_each bars label_rps st = (inr tt, st') ->
    exists ts, Forall2 rps_labelled bars ts /\ st' = on_ax1 (add_texts ts) st.
Proof.
  induction bars as [|bar bars IH]; intros st st' H; cbn in H.
  - inversion H; subst st'. exists []. split; [constructor|].
    now rewrite on_ax1_id.
  - apply bind_inr_inv in H. destruct H as ([] & st1 & Hbar & H).
    unfold label_rps in Hbar.
    apply bind_inr_inv in Hbar. destruct Hbar as (n & st0 & Hint & Hset).
    apply lift_inr_inv in Hint. destruct Hint as [Hint ->].
    inversion Hset; subst st1; clear Hset.
    destruct (IH _ _ H) as (ts & Hts & ->).
    exists (Text (label_x bar) (get_height bar) (format_comma n)
                 "center" "bottom" :: ts).
    split.
    + constructor; [now exists n | exact Hts].
    + unfold on_ax1, add_texts, Plt.add_text; cbn.
      now rewrite <- app_assoc.
Qed.

Lemma label_latency_loop (bars : list rect) :
  forall st st',
    for_each bars label_latency st = (inr tt, st') ->
    exists ts, Forall2 latency_labelled bars ts
               /\ st' = on_ax2 (add_texts ts) st.
Proof.
  induction bars as [|bar bars IH]; intros st st' H; cbn in H.
  - inversion H; subst st'. exists []. split; [constructor|].
    now rewrite on_ax2_id.
  - apply bind_inr_inv in H. destruct H as ([] & st1 & Hbar & H).
    unfold label_latency in Hbar.
    apply bind_inr_inv in Hbar. destruct Hbar as (s & st0 & Hfmt & Hset).
    apply lift_inr_inv in Hfmt. destruct Hfmt as [Hfmt ->].
    inversion Hset; subst st1; clear Hset.
    destruct (IH _ _ H) as (ts & Hts & ->).
    exists (Text (label_x bar) (get_height bar) s "center" "bottom" :: ts).
    split.
    + constructor; [now exists s | exact Hts].
    + unfold on_ax2, add_texts, Plt.add_text; cbn.
      now rewrite <- app_assoc.
Qed.

(** Brings a state built by a chain of updates back to a plain record. *)
Ltac unfold_state H :=
  unfold on_ax1, on_ax2, log, add_texts, Plt.add_container, Plt.with_ylabel,
    Plt.with_title, Plt.with_xticks, Plt.with_xticklabels, Plt.with_legend,
    new_axes in H;
  cbn [rps_no_schema rps_schema latency_no_schema latency_schema
       framework_names figsize ax1 ax2 events containers ylabel title
       xticks xticklabels legend texts app] in H.

(** One method call that only updates the state. *)
Ltac modify_step H :=
  let s := fresh "s" in
  let Hset := fresh "Hset" in
  apply bind_inr_inv in H; destruct H as ([] & s & Hset & H);
  apply modify_inv in Hset; subst s; unfold_state H.

(** One [bar] call: names the container and the equation that made it. *)
Ltac bar_step H rs Hrs :=
  let s := fresh "s" in
  let s' := fresh "s" in
  let r := fresh "r" in
  let Hb := fresh "Hb" in
  apply bind_inr_inv in H; destruct H as (rs & s & Hb & H);
  unfold Plt.bar in Hb;
  apply bind_inr_inv in Hb; destruct Hb as (r & s' & Hrs & Hb);
  apply lift_inr_inv in Hrs; destruct Hrs as [Hrs ->];
  apply bind_inr_inv in Hb; destruct Hb as ([] & s' & Hset & Hb);
  apply modify_inv in Hset; subst s';
  inversion Hb; subst r s; clear Hb;
  unfold_state H;
  cbn [rps_no_schema rps_schema latency_no_schema latency_schema] in Hrs.

Definition half_width : float := PrimFloat.div width (float_of_lit 2).

Definition throughput_axes (names : list string) (rps1 rps2 : list rect)
    (ts : list text) : axes :=
  Axes [("No Schema", rps1); ("With Schema", rps2)]
       "Requests per Second"
       "Framework Performance Comparison - Requests per Second (Higher is Better)"
       (arange (length names)) names true ts.

Definition latency_axes (names : list string) (lat1 lat2 : list rect)
    (ts : list text) : axes :=
  Axes [("No Schema", lat1); ("With Schema", lat2)]
       "Average Latency (ms)"
       "Framework Performance Comparison - Average Latency (Lower is Better)"
       (arange (length names)) names true ts.

Definition confirmation : string :=
  "Chart has been saved as 'framework_comparison.png'".

(** The state in which a complete rendering of [st] ends. *)
Definition rendered (st : state) (a1 a2 : axes) : state :=
  State (rps_no_schema st) (rps_schema st) (latency_no_schema st)
        (latency_schema st) (framework_names st) (12, 10) a1 a2
        (events st ++ [ESavefig output_file 300 "tight" (12, 10) a1 a2;
                       EPrint confirmation]).

Lemma render_spec (st st' : state) :
  render st = (inr tt, st') ->
  let x := arange (length (framework_names st)) in
  exists rps1 rps2 lat1 lat2 ts1 ts2,
    Plt.bar_rects (array_sub x half_width) (rps_no_schema st) width = inr rps1 /\
    Plt.bar_rects (array_add x half_width) (rps_schema st) width = inr rps2 /\
    Plt.bar_rects (array_sub x half_width) (latency_no_schema st) width
    = inr lat1 /\
    Plt.bar_rects (array_add x half_width) (latency_schema st) width
    = inr lat2 /\
    Forall2 rps_labelled (rps1 ++ rps2) ts1 /\
    Forall2 latency_labelled (lat1 ++ lat2) ts2 /\
    st' = rendered st (throughput_axes (framework_names st) rps1 rps2 ts1)
                      (latency_axes (framework_names st) lat1 lat2 ts2).
Proof.
  intros H x. unfold render in H.
  apply bind_inr_inv in H. destruct H as ([] & s1 & Hsub & H).
  apply modify_inv in Hsub. subst s1. unfold_state H.
  apply bind_inr_inv in H. destruct H as (s & s1 & Hget & H).
  inversion Hget; subst s s1; clear Hget. unfold_state H.
  fold half_width x in H.
  (* the throughput bars *)
  bar_step H rps1 Hr1.
  bar_step H rps2 Hr2.
  do 5 modify_step H.
  (* the throughput labels *)
  apply bind_inr_inv in H. destruct H as ([] & s1 & Hl & H).
  cbn [for_each] in Hl.
  apply bind_inr_inv in Hl. destruct Hl as ([] & s2 & Hl1 & Hl).
  apply bind_inr_inv in Hl. destruct Hl as ([] & s3 & Hl2 & Hl).
  inversion Hl; subst s3; clear Hl.
  apply label_rps_loop in Hl1. destruct Hl1 as (ta & Hta & ->).
  apply label_rps_loop in Hl2. destruct Hl2 as (tb & Htb & ->).
  unfold_state H.
  (* the latency bars *)
  bar_step H lat1 Hr3.
  bar_step H lat2 Hr4.
  do 5 modify_step H.
  (* the latency labels *)
  apply bind_inr_inv in H. destruct H as ([] & s1 & Hl & H).
  cbn [for_each] in Hl.
  apply bind_inr_inv in Hl. destruct Hl as ([] & s2 & Hl1 & Hl).
  apply bind_inr_inv in Hl. destruct Hl as ([] & s3 & Hl2 & Hl).
  inversion Hl; subst s3; clear Hl.
  apply label_latency_loop in Hl1. destruct Hl1 as (tc & Htc & ->).
  apply label_latency_loop in Hl2. destruct Hl2 as (td & Htd & ->).
  unfold_state H.
  (* saving and the confirmation *)
  apply bind_inr_inv in H. destruct H as ([] & s1 & Hlayout & H).
  inversion Hlayout; subst s1; clear Hlayout.
  apply bind_inr_inv in H. destruct H as ([] & s1 & Hsave & H).
  unfold Plt.savefig in Hsave.
  apply bind_inr_inv in Hsave. destruct Hsave as (s & s2 & Hget & Hsave).
  inversion Hget; subst s s2; clear Hget. unfold_state Hsave.
  apply modify_inv in Hsave. subst s1. unfold_state H.
  apply modify_inv in H. subst st'.
  exists rps1, rps2, lat1, lat2, (ta ++ tb), (tc ++ td).
  repeat split; try assumption.
  - now apply Forall2_app.
  - now apply Forall2_app.
  - unfold log, rendered.
    cbn [rps_no_schema rps_schema latency_no_schema latency_schema
         framework_names figsize ax1 ax2 events].
    now rewrite <- app_assoc.
Qed.

(** ** A complete run *)

Lemma frameworks_well_formed : well_formed frameworks.
Proof. unfold well_formed, frameworks. repeat constructor. Qed.

Lemma lookup_map {A B : Type} (f : A -> B) (l : list A) (i : nat) :
  map f l !! i = f <$> (l !! i).
Proof.
  revert i. induction l as [|a l IH]; intros [|i]; cbn; try reflexivity.
  apply IH.
Qed.

(** A failed aggregation pass ends the run where it stopped. *)
Lemma run_collect_failed fs e st :
  collect fs frameworks initial = (inl e, st) -> run fs = (inl e, st).
Proof. intros H. unfold run, script. now apply bind_inl. Qed.

(** The facts that hold of a run that reached its end: the rows that the
    files contributed, the four bar containers and the labels. *)
Record completed (fs : filesystem) (st : state) (rows : list row)
    (rps1 rps2 lat1 lat2 : list rect) (ts1 ts2 : list text) : Prop := {
  c_rows : Forall2 (entry_loaded fs) frameworks rows;
  c_rps1 : Plt.bar_rects (array_sub (arange (length frameworks)) half_width)
             (map (fun r : row => r.1.1) rows) width = inr rps1;
  c_rps2 : Plt.bar_rects (array_add (arange (length frameworks)) half_width)
             (map (fun r : row => r.2.1) rows) width = inr rps2;
  c_lat1 : Plt.bar_rects (array_sub (arange (length frameworks)) half_width)
             (map (fun r : row => r.1.2) rows) width = inr lat1;
  c_lat2 : Plt.bar_rects (array_add (arange (length frameworks)) half_width)
             (map (fun r : row => r.2.2) rows) width = inr lat2;
  c_ts1 : Forall2 rps_labelled (rps1 ++ rps2) ts1;
  c_ts2 : Forall2 latency_labelled (lat1 ++ lat2) ts2;
  c_state : st = rendered (after_collect initial frameworks rows)
                   (throughput_axes (map fst frameworks) rps1 rps2 ts1)
                   (latency_axes (map fst frameworks) lat1 lat2 ts2)
}.

Lemma run_completed fs st :
  run fs = (inr tt, st) ->
  exists rows rps1 rps2 lat1 lat2 ts1 ts2,
    completed fs st rows rps1 rps2 lat1 lat2 ts1 ts2.
Proof.
  intros H. unfold run, script in H.
  apply bind_inr_inv in H. destruct H as ([] & st0 & Hc & Hr).
  destruct (collect_spec fs frameworks frameworks_well_formed initial)
    as [(rows & Hrows & Hrun) | (k & e & st' & _ & Hrun & _)];
    [|rewrite Hrun in Hc; discriminate Hc].
  rewrite Hrun in Hc. inversion Hc; subst st0; clear Hc.
  apply render_spec in Hr.
  destruct Hr as (rps1 & rps2 & lat1 & lat2 & ts1 & ts2 &
                  H1 & H2 & H3 & H4 & Ht1 & Ht2 & Hst).
  exists rows, rps1, rps2, lat1, lat2, ts1, ts2.
  unfold after_collect, initial in H1, H2, H3, H4;
    cbn [rps_no_schema rps_schema latency_no_schema latency_schema
         framework_names app] in H1, H2, H3, H4.
  rewrite length_map in H1, H2, H3, H4.
  split; try assumption.
Qed.

(** ** A sample world *)

(** A result file with the two summary fields. *)
Definition summary_doc (rps average : value) : value :=
  VDict {[ "summary" :=
             VDict (<[ "requestsPerSec" := rps ]> {[ "average" := average ]}) ]}.

(** Every configured file is present; the two files of Bun hold the figures
    of the worked scenario; files that are not configured do not exist. *)
Definition sample_fs : filesystem :=
  fun filename =>
    if String.eqb filename "bun_no_schema.json" then
      Contents (Some (summary_doc (VInt 50000) (VFloat 0.002)))
    else if String.eqb filename "bun_schema.json" then
      Contents (Some (summary_doc (VFloat 42000) (VFloat 0.0025)))
    else if existsb (String.eqb filename) (files_of frameworks) then
      Contents (Some (summary_doc (VFloat 31250.9) (VFloat 0.0031)))
    else NoFile.

Definition sample_state : state := (run sample_fs).2.

Lemma sample_run : run sample_fs = (inr tt, sample_state).
Proof. vm_compute. reflexivity. Qed.

(** ** The aggregated series *)

(** C2. After any number of completed iterations of the aggregation loop
    (the entries [p] done, the entries [q] still to come), and so also after
    the whole pass, the four aggregated sequences and the sequence of
    framework names have the same length, the number of entries done: each
    iteration appends exactly one element to each of the five. The rest of
    the pass continues from that state. *)
Theorem series_lengths_aligned (fs : filesystem)
    (p q : list (string * list string)) (st : state) :
  frameworks = p ++ q ->
  collect fs p initial = (inr tt, st) ->
  collect fs frameworks initial = collect fs q st /\
  length (rps_no_schema st) = length p /\
  length (rps_schema st) = length p /\
  length (latency_no_schema st) = length p /\
  length (latency_schema st) = length p /\
  length (framework_names st) = length p.
Proof.
  intros Hpq Hp. split.
  - rewrite Hpq. unfold collect in *. rewrite for_each_app.
    exact (bind_inr _ (fun _ => for_each q (loop_body fs)) _ _ _ Hp).
  - assert (Hwf : well_formed p).
    { pose proof frameworks_well_formed as H. rewrite Hpq in H.
      unfold well_formed in H. now apply Forall_app in H. }
    destruct (collect_spec fs p Hwf initial)
      as [(rows & Hrows & Hrun) | (k & e & st' & _ & Hrun & _)];
      [|rewrite Hrun in Hp; discriminate Hp].
    rewrite Hrun in Hp. inversion Hp; subst st; clear Hp.
    apply Forall2_length in Hrows.
    unfold after_collect, initial; cbn.
    now rewrite !length_map.
Qed.

Lemma series_lengths_aligned_witness :
  let st := (collect sample_fs (take 3 frameworks) initial).2 in
  collect sample_fs frameworks initial
  = collect sample_fs (drop 3 frameworks) st /\
  length (rps_no_schema st) = 3%nat /\
  length (rps_schema st) = 3%nat /\
  length (latency_no_schema st) = 3%nat /\
  length (latency_schema st) = 3%nat /\
  length (framework_names st) = 3%nat.
Proof.
  apply (series_lengths_aligned sample_fs (take 3 frameworks)
           (drop 3 frameworks)).
  - reflexivity.
  - vm_compute. reflexivity.
Defined.

(** ** Reading the chart *)

(** The bar container that was given a series label. *)
Fixpoint container (label : string) (cs : list (string * list rect))
  : option (list rect) :=
  match cs with
  | [] => None
  | (l, rs) :: cs' => if String.eqb l label then Some rs else container label cs'
  end.

(** The bar of index [i] in the series [label] of an axes. *)
Definition bar_of (a : axes) (label : string) (i : nat) : option rect :=
  match container label (containers a) with
  | Some rs => rs !! i
  | None => None
  end.

(** All the bars of an axes, in the order in which the label loop visits
    them: container after container. *)
Definition bars (a : axes) : list rect := flat_map snd (containers a).

(** The number that [filename] holds at [summary.<key>]. *)
Definition reads (fs : filesystem) (filename key : string) (v : value)
  : Prop :=
  exists data summary,
    fs filename = Contents (Some data) /\
    getitem data "summary" = inr summary /\
    getitem summary key = inr v.

(** The bar of index [i] in the series [label] is plotted at the value
    [v], one of the values [series] handed to the bar call: at [v] as the
    array of heights stores it. So a float other than [-0.0] is plotted at
    itself, and an integer is plotted at itself when the whole series is
    made of integers. *)
Definition plotted (a : axes) (label : string) (i : nat)
    (series : list value) (v : value) : Prop :=
  exists bar,
    bar_of a label i = Some bar /\
    stored series v (get_height bar) /\
    (forall f, v = VFloat f -> Prim2SF f <> S754_zero true ->
               get_height bar = NFloat f) /\
    (forall z, v = VInt z -> all_whole series = true ->
               get_height bar = NInt z).

Lemma stored_plain (series : list value) (v : value) (n : number) :
  stored series v n ->
  (forall f, v = VFloat f -> Prim2SF f <> S754_zero true -> n = NFloat f) /\
  (forall z, v = VInt z -> all_whole series = true -> n = NInt z).
Proof.
  unfold stored. intros H. split.
  - intros f -> Hf. cbn in H. now rewrite (zero_add_sub_zero_same f Hf) in H.
  - intros z -> Hall. rewrite Hall in H. cbn in H. apply H.
Qed.

Lemma load_inr_inv fs filename rps ms :
  load fs filename = inr (rps, ms) ->
  exists average,
    reads fs filename "requestsPerSec" rps /\
    reads fs filename "average" average /\
    mul_int average 1000 = inr ms.
Proof.
  unfold load, reads. intros H.
  destruct (fs filename) as [| |[data|]]; try discriminate H.
  destruct (getitem data "summary") as [e|summary] eqn:Hs; [discriminate H|].
  destruct (getitem summary "requestsPerSec") as [e|r] eqn:Hr;
    [discriminate H|].
  destruct (getitem summary "average") as [e|a] eqn:Ha; [discriminate H|].
  destruct (mul_int a 1000) as [e|m] eqn:Hm; [discriminate H|].
  inversion H; subst r m; clear H.
  exists a. repeat split; eauto.
Qed.

(** The bar made for the row of index [i]. *)
Lemma bar_lookup (f : row -> value) (xs : list float) (rows : list row)
    (w : float) (rs : list rect) (i : nat) (r : row) :
  Plt.bar_rects xs (map f rows) w = inr rs ->
  rows !! i = Some r ->
  exists bar x,
    rs !! i = Some bar /\ xs !! i = Some x /\
    stored (map f rows) (f r) (get_height bar) /\
    get_x bar = PrimFloat.sub x (PrimFloat.div (Plt.bar_width xs w)
                                               (float_of_lit 2)) /\
    get_width bar = Plt.bar_width xs w.
Proof.
  intros Hrs Hi.
  destruct (bar_rects_spec _ _ _ _ Hrs) as (L1 & L2 & Hall).
  rewrite length_map in L2.
  assert (Hlt : (i < length rs)%nat).
  { rewrite L2. now apply lookup_lt_Some in Hi. }
  apply lookup_lt_is_Some_2 in Hlt. destruct Hlt as [bar Hbar].
  destruct (Hall i bar Hbar) as (x & h & Hx & Hh & Hn & Hgx & Hgw).
  rewrite lookup_map, Hi in Hh. cbn in Hh. inversion Hh; subst h.
  now exists bar, x.
Qed.

(** The four bars of a configured entry, and the values at which they are
    plotted: those that the two files of the entry contributed, as the
    arrays of heights store them. *)
Lemma entry_plotted (fs : filesystem) (st : state) (i : nat) (name : string)
    (files : list string) :
  run fs = (inr tt, st) ->
  frameworks !! i = Some (name, files) ->
  exists f0 f1 a b c1 c2 c3 c4,
    files = [f0; f1] /\ load fs f0 = inr a /\ load fs f1 = inr b /\
    bar_of (ax1 st) "No Schema" i = Some c1 /\
    stored (rps_no_schema st) a.1 (get_height c1) /\
    bar_of (ax1 st) "With Schema" i = Some c2 /\
    stored (rps_schema st) b.1 (get_height c2) /\
    bar_of (ax2 st) "No Schema" i = Some c3 /\
    stored (latency_no_schema st) a.2 (get_height c3) /\
    bar_of (ax2 st) "With Schema" i = Some c4 /\
    stored (latency_schema st) b.2 (get_height c4).
Proof.
  intros Hrun Hi.
  destruct (run_completed fs st Hrun)
    as (rows & b1 & b2 & l1 & l2 & ts1 & ts2 & [Hrows H1 H2 H3 H4 _ _ Hst]).
  destruct (Forall2_lookup_l _ _ _ _ _ Hrows Hi)
    as ([a b] & Hrow & f0 & f1 & Hfiles & Hl0 & Hl1).
  cbn in Hfiles, Hl0, Hl1.
  destruct (bar_lookup _ _ _ _ _ _ _ H1 Hrow) as (c1 & ? & Hc1 & _ & Hn1 & _).
  destruct (bar_lookup _ _ _ _ _ _ _ H2 Hrow) as (c2 & ? & Hc2 & _ & Hn2 & _).
  destruct (bar_lookup _ _ _ _ _ _ _ H3 Hrow) as (c3 & ? & Hc3 & _ & Hn3 & _).
  destruct (bar_lookup _ _ _ _ _ _ _ H4 Hrow) as (c4 & ? & Hc4 & _ & Hn4 & _).
  cbn [fst snd] in Hn1, Hn2, Hn3, Hn4.
  exists f0, f1, a, b, c1, c2, c3, c4. subst st.
  repeat split; assumption.
Qed.

(** C1, as the code has it. In a complete run, for every configured
    framework entry: the "No Schema" throughput bar of the entry stands at
    the value read from [summary.requestsPerSec] of the entry's first file,
    and its "No Schema" latency bar at [summary.average] of that file times
    1000, each as the array of heights of its series stores it: a float at
    itself ([-0.0] as [0.0]); an integer, which must fit 64 bits, at itself
    when the series holds integers only, and at the nearest float
    otherwise. The "With Schema" bars stand, in the same way, at the values
    of the entry's second file. *)
Theorem bars_plot_file_values (fs : filesystem) (st : state) (i : nat)
    (name : string) (files : list string) :
  run fs = (inr tt, st) ->
  frameworks !! i = Some (name, files) ->
  exists f0 f1 rps0 avg0 ms0 rps1 avg1 ms1,
    files = [f0; f1] /\
    reads fs f0 "requestsPerSec" rps0 /\
    reads fs f0 "average" avg0 /\
    mul_int avg0 1000 = inr ms0 /\
    plotted (ax1 st) "No Schema" i (rps_no_schema st) rps0 /\
    plotted (ax2 st) "No Schema" i (latency_no_schema st) ms0 /\
    reads fs f1 "requestsPerSec" rps1 /\
    reads fs f1 "average" avg1 /\
    mul_int avg1 1000 = inr ms1 /\
    plotted (ax1 st) "With Schema" i (rps_schema st) rps1 /\
    plotted (ax2 st) "With Schema" i (latency_schema st) ms1.
Proof.
  intros Hrun Hi.
  destruct (entry_plotted fs st i name files Hrun Hi)
    as (f0 & f1 & [r0 m0] & [r1 m1] & c1 & c2 & c3 & c4 & Hfiles & Hl0 & Hl1 &
        Hc1 & Hn1 & Hc2 & Hn2 & Hc3 & Hn3 & Hc4 & Hn4).
  destruct (load_inr_inv _ _ _ _ Hl0) as (a0 & Hr0 & Ha0 & Hm0).
  destruct (load_inr_inv _ _ _ _ Hl1) as (a1 & Hr1 & Ha1 & Hm1).
  cbn [fst snd] in Hn1, Hn2, Hn3, Hn4.
  exists f0, f1, r0, a0, m0, r1, a1, m1.
  split; [exact Hfiles|].
  do 3 (split; [assumption|]).
  split; [exists c1; do 2 (split; [assumption|]); now apply stored_plain|].
  split; [exists c3; do 2 (split; [assumption|]); now apply stored_plain|].
  do 3 (split; [assumption|]).
  split; [exists c2; do 2 (split; [assumption|]); now apply stored_plain|].
  exists c4; do 2 (split; [assumption|]); now apply stored_plain.
Qed.

Lemma bars_plot_file_values_witness :
  exists f0 f1 rps0 avg0 ms0 rps1 avg1 ms1,
    ["bun_no_schema.json"; "bun_schema.json"] = [f0; f1] /\
    reads sample_fs f0 "requestsPerSec" rps0 /\
    reads sample_fs f0 "average" avg0 /\
    mul_int avg0 1000 = inr ms0 /\
    plotted (ax1 sample_state) "No Schema" 0
      (rps_no_schema sample_state) rps0 /\
    plotted (ax2 sample_state) "No Schema" 0
      (latency_no_schema sample_state) ms0 /\
    reads sample_fs f1 "requestsPerSec" rps1 /\
    reads sample_fs f1 "average" avg1 /\
    mul_int avg1 1000 = inr ms1 /\
    plotted (ax1 sample_state) "With Schema" 0
      (rps_schema sample_state) rps1 /\
    plotted (ax2 sample_state) "With Schema" 0
      (latency_schema sample_state) ms1.
Proof.
  apply (bars_plot_file_values sample_fs sample_state 0 "Bun").
  - vm_compute. reflexivity.
  - reflexivity.
Defined.

(** C5. In a complete run both panels have one x-axis tick per configured
    framework entry, at the positions 0, 1, 2, ..., and the tick labels are
    the framework names in the order of the configuration. *)
Theorem ticks_follow_configuration (fs : filesystem) (st : state) :
  run fs = (inr tt, st) ->
  length (xticks (ax1 st)) = length frameworks /\
  length (xticks (ax2 st)) = length frameworks /\
  xticks (ax1 st) = arange (length frameworks) /\
  xticks (ax2 st) = arange (length frameworks) /\
  xticklabels (ax1 st) = map fst frameworks /\
  xticklabels (ax2 st) = map fst frameworks.
Proof.
  intros Hrun.
  destruct (run_completed fs st Hrun)
    as (rows & b1 & b2 & l1 & l2 & ts1 & ts2 & [_ _ _ _ _ _ _ Hst]).
  subst st. cbn [rendered ax1 ax2 throughput_axes latency_axes xticks
                 xticklabels].
  rewrite length_map. unfold arange. rewrite length_map, length_seq.
  repeat split; reflexivity.
Qed.

Lemma ticks_follow_configuration_witness :
  length (xticks (ax1 sample_state)) = length frameworks /\
  length (xticks (ax2 sample_state)) = length frameworks /\
  xticks (ax1 sample_state) = arange (length frameworks) /\
  xticks (ax2 sample_state) = arange (length frameworks) /\
  xticklabels (ax1 sample_state) = map fst frameworks /\
  xticklabels (ax2 sample_state) = map fst frameworks.
Proof.
  apply (ticks_follow_configuration sample_fs sample_state).
  vm_compute. reflexivity.
Defined.

(** ** Runs that abort *)

(** An event that only attempts to open an input file: neither the image
    is written nor a line printed. *)
Definition is_open (ev : event) : Prop :=
  match ev with
  | EOpen _ => True
  | ESavefig _ _ _ _ _ _ | EPrint _ => False
  end.

Lemma opens_only (files : list string) : Forall is_open (map EOpen files).
Proof. induction files; constructor; [exact I | assumption]. Qed.

(** After a complete pass every configured file has been loaded. *)
Lemma all_loaded fs cfg rows :
  Forall2 (entry_loaded fs) cfg rows ->
  forall f, In f (files_of cfg) -> exists v, load fs f = inr v.
Proof.
  induction 1 as [|[name files] r cfg rows (f0 & f1 & Hf & H0 & H1) _ IH];
    intros f Hin.
  - destruct Hin.
  - unfold files_of in Hin. cbn in Hin, Hf. subst files.
    destruct Hin as [<-|[<-|Hin]]; eauto.
Qed.

(** A run in which some configured file cannot be loaded: the pass stops at
    the first such file, the run ends with its exception, and all that the
    run has done is to open the files up to that one. *)
Lemma run_aborts fs f e0 :
  In f (files_of frameworks) ->
  load fs f = inl e0 ->
  exists k g e st,
    run fs = (inl e, st) /\
    files_of frameworks !! k = Some g /\
    load fs g = inl e /\
    events st = map EOpen (take (S k) (files_of frameworks)) /\
    forall i, files_of frameworks !! i = Some f -> (k <= i)%nat.
Proof.
  intros Hin Hbad.
  destruct (collect_spec fs frameworks frameworks_well_formed initial)
    as [(rows & Hrows & _) | (k & e & st & [(g & Hk & Hg) Hbefore] & Hrun & Hev)].
  - destruct (all_loaded _ _ _ Hrows f Hin) as [v Hv]. congruence.
  - exists k, g, e, st. repeat split; try assumption.
    + now apply run_collect_failed.
    + intros i Hi. destruct (Nat.le_gt_cases k i) as [Hle|Hlt]; [exact Hle|].
      destruct (Hbefore i f Hlt Hi) as [v Hv]. congruence.
Qed.

(** C3. If one of the configured input files is missing, cannot be opened
    or is not valid JSON, the run ends with an exception, and everything
    it has done by then is to open input files: the image is not written
    and the confirmation is not printed. *)
Theorem unreadable_input_aborts (fs : filesystem) (f : string) :
  In f (files_of frameworks) ->
  fs f = NoFile \/ fs f = NoAccess \/ fs f = Contents None ->
  exists e st, run fs = (inl e, st) /\ Forall is_open (events st).
Proof.
  intros Hin Hbad.
  assert (exists e0, load fs f = inl e0) as [e0 He0].
  { unfold load. destruct Hbad as [->|[->| ->]]; eauto. }
  destruct (run_aborts fs f e0 Hin He0) as (k & g & e & st & Hrun & _ & _ & Hev & _).
  exists e, st. split; [exact Hrun|].
  rewrite Hev. apply opens_only.
Qed.

(** The sample world with one file replaced. *)
Definition with_file (fs : filesystem) (filename : string) (c : file)
  : filesystem :=
  fun g => if String.eqb g filename then c else fs g.

Lemma unreadable_input_aborts_witness :
  exists e st,
    run (with_file sample_fs "express_schema.json" NoFile) = (inl e, st) /\
    Forall is_open (events st).
Proof.
  apply (unreadable_input_aborts
           (with_file sample_fs "express_schema.json" NoFile)
           "express_schema.json").
  - cbn. tauto.
  - left. reflexivity.
Defined.

(** A world in which the throughput of one result file is the integer
    2^53 + 1, beside result files whose throughputs are floats. *)
Definition big_int_fs : filesystem :=
  with_file sample_fs "bun_no_schema.json"
    (Contents (Some (summary_doc (VInt 9007199254740993) (VFloat 0.002)))).

(** C1, as the claim has it, fails: the run in [big_int_fs] is complete,
    the first file of the first entry holds 9007199254740993 at
    [summary.requestsPerSec], and the bar of that entry stands at the float
    9007199254740992, a different number. *)
Lemma bar_not_at_file_value :
  exists st bar,
    run big_int_fs = (inr tt, st) /\
    frameworks !! 0%nat
    = Some ("Bun", ["bun_no_schema.json"; "bun_schema.json"]) /\
    reads big_int_fs "bun_no_schema.json" "requestsPerSec"
      (VInt 9007199254740993) /\
    bar_of (ax1 st) "No Schema" 0 = Some bar /\
    get_height bar = NFloat 9007199254740992 /\
    int (get_height bar) = inr 9007199254740992 /\
    9007199254740992 <> 9007199254740993.
Proof.
  exists (run big_int_fs).2. eexists.
  split; [vm_compute; reflexivity|].
  split; [reflexivity|].
  split; [eexists _, _; repeat split; vm_compute; reflexivity|].
  split; [vm_compute; reflexivity|].
  split; [vm_compute; reflexivity|].
  split; [vm_compute; reflexivity|].
  discriminate.
Qed.

(** The document has no value at [summary.<key>]. *)
Definition lacks (data : value) (key : string) : Prop :=
  forall summary v,
    getitem data "summary" = inr summary -> getitem summary key <> inr v.

(** C4. If a configured input file parses as JSON but has no
    [summary.requestsPerSec] or no [summary.average], that file contributes
    no value, no default in its place, and the run ends with an exception,
    the one raised by the first file that cannot be loaded (this file or an
    earlier one); no file after it is opened, the image is not written and the
    confirmation is not printed. *)
Theorem missing_field_aborts (fs : filesystem) (f : string) (data : value) :
  In f (files_of frameworks) ->
  fs f = Contents (Some data) ->
  lacks data "requestsPerSec" \/ lacks data "average" ->
  (forall v, load fs f <> inr v) /\
  exists k g e st,
    run fs = (inl e, st) /\
    files_of frameworks !! k = Some g /\
    load fs g = inl e /\
    events st = map EOpen (take (S k) (files_of frameworks)) /\
    (forall i, files_of frameworks !! i = Some f -> (k <= i)%nat) /\
    Forall is_open (events st).
Proof.
  intros Hin Hf Hlacks.
  assert (exists e0, load fs f = inl e0) as [e0 He0].
  { unfold load. rewrite Hf.
    destruct (getitem data "summary") as [e|summary] eqn:Hs; [eauto|].
    destruct (getitem summary "requestsPerSec") as [e|r] eqn:Hr; [eauto|].
    destruct (getitem summary "average") as [e|a] eqn:Ha; [eauto|].
    destruct Hlacks as [H|H]; exfalso; eapply H; eauto. }
  split; [intros v Hv; congruence|].
  destruct (run_aborts fs f e0 Hin He0)
    as (k & g & e & st & Hrun & Hk & Hg & Hev & Hle).
  exists k, g, e, st. repeat split; try assumption.
  rewrite Hev. apply opens_only.
Qed.

(** A result file whose summary has no [average]. *)
Definition doc_without_average : value :=
  VDict {[ "summary" := VDict {[ "requestsPerSec" := VFloat 31250.9 ]} ]}.

Lemma missing_field_aborts_witness :
  let fs := with_file sample_fs "hono_no_schema.json"
              (Contents (Some doc_without_average)) in
  (forall v, load fs "hono_no_schema.json" <> inr v) /\
  exists k g e st,
    run fs = (inl e, st) /\
    files_of frameworks !! k = Some g /\
    load fs g = inl e /\
    events st = map EOpen (take (S k) (files_of frameworks)) /\
    (forall i, files_of frameworks !! i = Some "hono_no_schema.json" ->
               (k <= i)%nat) /\
    Forall is_open (events st).
Proof.
  apply (missing_field_aborts
           (with_file sample_fs "hono_no_schema.json"
              (Contents (Some doc_without_average)))
           "hono_no_schema.json" doc_without_average).
  - cbn. tauto.
  - reflexivity.
  - right. intros summary v Hs. vm_compute in Hs.
    inversion Hs; subst summary. vm_compute. discriminate.
Defined.

(** ** Determinism *)

Lemma loop_body_ext fs1 fs2 (entry : string * list string) st :
  Forall (fun f => fs1 f = fs2 f) entry.2 ->
  loop_body fs1 entry st = loop_body fs2 entry st.
Proof.
  destruct entry as [name files]. cbn [snd]. intros Hagree.
  unfold loop_body, read_json_file, list_getitem.
  destruct files as [|f0 files]; [reflexivity|].
  apply Forall_cons in Hagree. destruct Hagree as [H0 Hagree].
  destruct files as [|f1 files].
  - unfold bind, lift, ret, raise; cbn. now rewrite H0.
  - apply Forall_cons in Hagree. destruct Hagree as [H1 _].
    unfold bind, lift, ret, raise; cbn. now rewrite H0, H1.
Qed.

Lemma collect_ext fs1 fs2 cfg :
  Forall (fun f => fs1 f = fs2 f) (files_of cfg) ->
  forall st, collect fs1 cfg st = collect fs2 cfg st.
Proof.
  unfold collect, files_of.
  induction cfg as [|entry cfg IH]; intros Hagree st; [reflexivity|].
  cbn in Hagree. apply Forall_app in Hagree. destruct Hagree as [He Hcfg].
  cbn [for_each]. unfold bind.
  rewrite (loop_body_ext fs1 fs2 entry st He).
  destruct (loop_body fs2 entry st) as [[e|[]] st1]; [reflexivity|].
  now apply IH.
Qed.

(** C9. The run is a function of the contents of the configured input
    files: two executions in worlds that agree on those files take the same
    course and end in the same state, with the same aggregated sequences,
    the same bars and labels and the same console output. *)
Theorem run_deterministic (fs1 fs2 : filesystem) :
  Forall (fun f => fs1 f = fs2 f) (files_of frameworks) ->
  run fs1 = run fs2 /\
  rps_no_schema (run fs1).2 = rps_no_schema (run fs2).2 /\
  rps_schema (run fs1).2 = rps_schema (run fs2).2 /\
  latency_no_schema (run fs1).2 = latency_no_schema (run fs2).2 /\
  latency_schema (run fs1).2 = latency_schema (run fs2).2 /\
  bars (ax1 (run fs1).2) = bars (ax1 (run fs2).2) /\
  bars (ax2 (run fs1).2) = bars (ax2 (run fs2).2) /\
  texts (ax1 (run fs1).2) = texts (ax1 (run fs2).2) /\
  texts (ax2 (run fs1).2) = texts (ax2 (run fs2).2) /\
  events (run fs1).2 = events (run fs2).2.
Proof.
  intros Hagree.
  assert (Heq : run fs1 = run fs2).
  { unfold run, script, bind.
    now rewrite (collect_ext fs1 fs2 frameworks Hagree initial). }
  rewrite Heq. repeat split; reflexivity.
Qed.

Lemma run_deterministic_witness :
  let fs2 := with_file sample_fs "README.md" NoAccess in
  run sample_fs = run fs2 /\
  rps_no_schema (run sample_fs).2 = rps_no_schema (run fs2).2 /\
  rps_schema (run sample_fs).2 = rps_schema (run fs2).2 /\
  latency_no_schema (run sample_fs).2 = latency_no_schema (run fs2).2 /\
  latency_schema (run sample_fs).2 = latency_schema (run fs2).2 /\
  bars (ax1 (run sample_fs).2) = bars (ax1 (run fs2).2) /\
  bars (ax2 (run sample_fs).2) = bars (ax2 (run fs2).2) /\
  texts (ax1 (run sample_fs).2) = texts (ax1 (run fs2).2) /\
  texts (ax2 (run sample_fs).2) = texts (ax2 (run fs2).2) /\
  events (run sample_fs).2 = events (run fs2).2.
Proof.
  apply (run_deterministic sample_fs (with_file sample_fs "README.md" NoAccess)).
  unfold files_of, frameworks; cbn [flat_map snd app].
  repeat constructor.
Defined.

(** ** What the two formats produce *)

Definition is_digit (c : ascii) : Prop :=
  (48 <= nat_of_ascii c <= 57)%nat.

(** [s] writes the digits [ds] in groups of three counted from the right,
    with a comma between neighbouring groups: a first group of one to three
    digits, then groups of exactly three. *)
Definition thousands_grouped (ds s : list ascii) : Prop :=
  exists g0 gs,
    ds = g0 ++ concat gs /\
    (1 <= length g0 <= 3)%nat /\
    Forall (fun g => length g = 3%nat) gs /\
    s = g0 ++ flat_map (fun g => ","%char :: g) gs.

(** The value [m * 2^e] of a finite float as a fraction of integers. *)
Definition numerator (m : positive) (e : Z) : Z := Z.pos m * 2 ^ Z.max 0 e.
Definition denominator (e : Z) : Z := 2 ^ Z.max 0 (- e).

(** [n] is the float of sign [neg] and magnitude [m * 2^e] with its
    fractional part dropped: [|n| <= m * 2^e < |n| + 1]. *)
Definition is_truncation (neg : bool) (m : positive) (e : Z) (n : Z) : Prop :=
  Z.abs n * denominator e <= numerator m e < (Z.abs n + 1) * denominator e /\
  (if neg then n <= 0 else 0 <= n).



Lemma uint_digits (d : Decimal.uint) :
  Forall is_digit (list_ascii_of_string (NilEmpty.string_of_uint d)).
Proof.
  induction d; simpl; constructor; try assumption;
    unfold is_digit; vm_compute; lia.
Qed.

Lemma digits_are_digits (n : N) : Forall is_digit (digits n).
Proof.
  unfold digits, NilZero.string_of_uint.
  destruct (N.to_uint n) eqn:E; try apply uint_digits.
  cbn. constructor; [unfold is_digit; vm_compute; lia | constructor].
Qed.

Lemma digits_nonempty (n : N) : digits n <> [].
Proof.
  unfold digits, NilZero.string_of_uint.
  destruct (N.to_uint n); cbn; discriminate.
Qed.

Lemma group3_grouped (fuel : nat) :
  forall ds : list ascii,
    (length ds <= fuel)%nat -> ds <> [] ->
    thousands_grouped (rev ds) (rev (group3 ds)).
Proof.
  induction fuel as [|fuel IH]; intros ds Hlen Hne.
  - destruct ds; [congruence | cbn in Hlen; lia].
  - destruct ds as [|a [|b [|c [|d rest]]]]; try congruence.
    + exists [a], []. cbn. repeat split; try lia; constructor.
    + exists [b; a], []. cbn. repeat split; try lia; constructor.
    + exists [c; b; a], []. cbn. repeat split; try lia; constructor.
    + destruct (IH (d :: rest)) as (g0 & gs & Hds & Hg0 & Hgs & Hs).
      { cbn in Hlen |- *. lia. }
      { discriminate. }
      exists g0, (gs ++ [[c; b; a]]).
      change (group3 (a :: b :: c :: d :: rest))
        with (a :: b :: c :: ","%char :: group3 (d :: rest)).
      change (rev (a :: b :: c :: d :: rest))
        with (((rev (d :: rest) ++ [c]) ++ [b]) ++ [a]).
      change (rev (a :: b :: c :: ","%char :: group3 (d :: rest)))
        with ((((rev (group3 (d :: rest)) ++ [","%char]) ++ [c]) ++ [b]) ++ [a]).
      rewrite Hds, Hs. repeat split.
      * rewrite concat_app. cbn. now rewrite <- !app_assoc.
      * lia.
      * lia.
      * apply Forall_app. split; [exact Hgs | repeat constructor].
      * rewrite flat_map_app. cbn. now rewrite <- !app_assoc.
Qed.

(** [format_comma] writes the sign and then the decimal digits of the
    magnitude, grouped in thousands. *)
Lemma format_comma_grouped (z : Z) :
  exists s,
    thousands_grouped (digits (Z.abs_N z)) s /\
    Forall (fun c => is_digit c \/ c = ","%char) s /\
    format_comma z = string_of_list_ascii (sign_chars (z <? 0) ++ s).
Proof.
  exists (rev (group3 (rev (digits (Z.abs_N z))))). split; [|split].
  - rewrite <- (rev_involutive (digits (Z.abs_N z))) at 1.
    apply (group3_grouped (length (rev (digits (Z.abs_N z))))); [lia|].
    intros H. apply (f_equal (@rev ascii)) in H.
    rewrite rev_involutive in H. now apply digits_nonempty in H.
  - destruct (group3_grouped (length (rev (digits (Z.abs_N z))))
                (rev (digits (Z.abs_N z)))) as (g0 & gs & Hds & _ & _ & ->).
    { lia. }
    { intros H. apply (f_equal (@rev ascii)) in H.
      rewrite rev_involutive in H. now apply digits_nonempty in H. }
    rewrite rev_involutive in Hds.
    pose proof (digits_are_digits (Z.abs_N z)) as Hd. rewrite Hds in Hd.
    apply Forall_app in Hd. destruct Hd as [Hg0 Hgs].
    apply Forall_app. split.
    + eapply Forall_impl; [exact Hg0 | intros c Hc; now left].
    + clear Hds. induction gs as [|g gs IH]; cbn; [constructor|].
      cbn in Hgs. apply Forall_app in Hgs. destruct Hgs as [Hg Hgs].
      constructor; [now right|]. apply Forall_app. split.
      * eapply Forall_impl; [exact Hg | intros c Hc; now left].
      * now apply IH.
  - reflexivity.
Qed.

Lemma trunc_finite_spec (neg : bool) (m : positive) (e : Z) :
  is_truncation neg m e (trunc_finite neg m e).
Proof.
  unfold is_truncation, trunc_finite, numerator, denominator.
  destruct (Z.leb_spec 0 e) as [He|He].
  - rewrite (Z.max_r 0 e), (Z.max_l 0 (- e)) by lia.
    assert (Ha : 0 <= Z.pos m * 2 ^ e) by (apply Z.mul_nonneg_nonneg; lia).
    change (2 ^ 0) with 1.
    destruct neg; split; lia.
  - rewrite (Z.max_l 0 e), (Z.max_r 0 (- e)) by lia.
    change (2 ^ 0) with 1. rewrite Z.mul_1_r.
    assert (Hd : 0 < 2 ^ (- e)) by (apply Z.pow_pos_nonneg; lia).
    pose proof (Z.mul_div_le (Z.pos m) _ Hd) as Hlo.
    pose proof (Z.mul_succ_div_gt (Z.pos m) _ Hd) as Hhi.
    assert (Ha : 0 <= Z.pos m / 2 ^ (- e)) by (apply Z.div_pos; lia).
    destruct neg; split; nia.
Qed.




(** ** The value labels *)

(** A float that is neither an infinity nor a NaN. *)
Definition finite (f : float) : Prop :=
  match Prim2SF f with
  | S754_zero _ | S754_finite _ _ _ => True
  | S754_infinity _ | S754_nan => False
  end.

(** The label of a throughput bar: placed at the height of the bar, it
    writes the integer part of the value, grouped in thousands. *)
Definition throughput_label (bar : rect) (t : text) : Prop :=
  text_y t = get_height bar /\
  exists n s,
    int (get_height bar) = inr n /\
    thousands_grouped (digits (Z.abs_N n)) s /\
    Forall (fun c => is_digit c \/ c = ","%char) s /\
    text_s t = string_of_list_ascii (sign_chars (n <? 0) ++ s).



Lemma completed_bars fs st rows rps1 rps2 lat1 lat2 ts1 ts2 :
  completed fs st rows rps1 rps2 lat1 lat2 ts1 ts2 ->
  bars (ax1 st) = rps1 ++ rps2 /\ texts (ax1 st) = ts1 /\
  bars (ax2 st) = lat1 ++ lat2 /\ texts (ax2 st) = ts2.
Proof.
  intros [_ _ _ _ _ _ _ ->]. unfold bars; cbn. now rewrite !app_nil_r.
Qed.

Lemma rps_labelled_ok bar t : rps_labelled bar t -> throughput_label bar t.
Proof.
  intros (n & Hn & ->). split; [reflexivity|].
  destruct (format_comma_grouped n) as (s & Hs & Hchars & Heq).
  exists n, s. now repeat split.
Qed.








(** *** Finding the label of a bar *)

(** The position of a series' first bar among all the bars of an axes. *)
Fixpoint offset (label : string) (cs : list (string * list rect))
  : option nat :=
  match cs with
  | [] => None
  | (l, rs) :: cs' =>
      if String.eqb l label then Some 0%nat
      else match offset label cs' with
           | Some k => Some (length rs + k)%nat
           | None => None
           end
  end.

(** The value label written for the bar of index [i] of a series: labels
    are written in the order of the bars. *)
Definition label_of (a : axes) (label : string) (i : nat) : option text :=
  match offset label (containers a) with
  | Some k => texts a !! (k + i)%nat
  | None => None
  end.

Lemma bar_of_position (cs : list (string * list rect)) (label : string)
    (i : nat) (rs : list rect) (bar : rect) :
  container label cs = Some rs -> rs !! i = Some bar ->
  exists k, offset label cs = Some k /\ flat_map snd cs !! (k + i)%nat = Some bar.
Proof.
  induction cs as [|[l rs'] cs IH]; cbn; intros Hc Hi; [discriminate Hc|].
  destruct (String.eqb l label).
  - inversion Hc; subst rs'. exists 0%nat. split; [reflexivity|].
    cbn. now apply lookup_app_l_Some.
  - destruct (IH Hc Hi) as (k & -> & Hk). exists (length rs' + k)%nat.
    split; [reflexivity|].
    rewrite lookup_app_r by lia.
    now replace (length rs' + k + i - length rs')%nat with (k + i)%nat by lia.
Qed.

(** Under a pairing of bars and labels, a bar of a series has its label. *)
Lemma label_of_bar (P : rect -> text -> Prop) (a : axes) (label : string)
    (i : nat) (bar : rect) :
  Forall2 P (bars a) (texts a) ->
  bar_of a label i = Some bar ->
  exists t, label_of a label i = Some t /\ P bar t.
Proof.
  unfold bar_of, label_of, bars. intros Hall Hbar.
  destruct (container label (containers a)) as [rs|] eqn:Hc;
    [|discriminate Hbar].
  destruct (bar_of_position _ _ _ _ _ Hc Hbar) as (k & -> & Hk).
  destruct (Forall2_lookup_l _ _ _ _ _ Hall Hk) as (t & Ht & HP).
  now exists t.
Qed.

Lemma reads_functional fs filename key v v' :
  reads fs filename key v -> reads fs filename key v' -> v = v'.
Proof.
  intros (d & s & Hd & Hs & Hv) (d' & s' & Hd' & Hs' & Hv'). congruence.
Qed.

(** The labels of a complete run, bar by bar, as the loops wrote them. *)
Lemma run_labelled fs st :
  run fs = (inr tt, st) ->
  Forall2 rps_labelled (bars (ax1 st)) (texts (ax1 st)) /\
  Forall2 latency_labelled (bars (ax2 st)) (texts (ax2 st)).
Proof.
  intros Hrun.
  destruct (run_completed fs st Hrun)
    as (rows & b1 & b2 & l1 & l2 & ts1 & ts2 & Hc).
  destruct (completed_bars _ _ _ _ _ _ _ _ _ Hc) as (-> & -> & -> & ->).
  now destruct Hc.
Qed.

(** *** Truncation of the throughput labels *)

(** The integer [n] is the float [x] with its fraction dropped. *)
Definition truncation_of (x : float) (n : Z) : Prop :=
  match Prim2SF x with
  | S754_zero _ => n = 0
  | S754_finite neg m e => is_truncation neg m e n
  | S754_infinity _ | S754_nan => False
  end.

(** The label writes the float value of the bar with the fraction dropped. *)
Definition truncated_label (bar : rect) (t : text) : Prop :=
  forall f, get_height bar = NFloat f ->
    exists n, text_s t = format_comma n /\ truncation_of f n.

(** If the file [f] holds a float [x] as its throughput, the series [label]
    has a bar of index [i] for it, standing at [x], and the bar has a value
    label: the thousands-grouped integer that is [x] with its fraction
    dropped. In particular 50000.9 is labelled 50,000. *)
Definition truncated_in (fs : filesystem) (st : state) (f label : string)
    (i : nat) : Prop :=
  (forall x, reads fs f "requestsPerSec" (VFloat x) ->
     exists bar t n,
       bar_of (ax1 st) label i = Some bar /\
       (Prim2SF x <> S754_zero true -> get_height bar = NFloat x) /\
       label_of (ax1 st) label i = Some t /\
       text_y t = get_height bar /\
       truncation_of x n /\
       text_s t = format_comma n) /\
  (reads fs f "requestsPerSec" (VFloat 50000.9) ->
     exists t, label_of (ax1 st) label i = Some t /\ text_s t = "50,000").

Lemma rps_labelled_truncated bar t : rps_labelled bar t -> truncated_label bar t.
Proof.
  intros (n & Hn & ->) f Hf. rewrite Hf in Hn. cbn in Hn.
  exists n. split; [reflexivity|]. unfold truncation_of.
  destruct (Prim2SF f) as [neg|neg| |neg m e]; try discriminate Hn;
    inversion Hn; subst n; [reflexivity | apply trunc_finite_spec].
Qed.

(** Dropping the fraction of [(0 + x) - 0] drops the fraction of [x]. *)
Lemma truncation_of_stored (x : float) (n : Z) :
  truncation_of (PrimFloat.sub (PrimFloat.add 0%float x) 0%float) n ->
  truncation_of x n.
Proof.
  unfold truncation_of. rewrite zero_add_sub_zero.
  now destruct (Prim2SF x).
Qed.

Lemma truncated_in_series (fs : filesystem) (st : state) (f label : string)
    (i : nat) (series : list value) (r : value) (bar : rect) :
  Forall2 rps_labelled (bars (ax1 st)) (texts (ax1 st)) ->
  reads fs f "requestsPerSec" r ->
  bar_of (ax1 st) label i = Some bar ->
  stored series r (get_height bar) ->
  truncated_in fs st f label i.
Proof.
  intros Hall Hr Hbar Hst.
  destruct (label_of_bar _ _ _ _ _ Hall Hbar) as (t & Ht & Hlab).
  split.
  - intros x Hx. pose proof (reads_functional _ _ _ _ _ Hx Hr) as <-.
    destruct (rps_labelled_ok _ _ Hlab) as [Hy _].
    destruct (rps_labelled_truncated _ _ Hlab _ Hst) as (n & Hs & Hn).
    exists bar, t, n.
    split; [exact Hbar|].
    split; [intros Hx0; now apply (proj1 (stored_plain _ _ _ Hst))|].
    split; [exact Ht|].
    split; [exact Hy|].
    split; [now apply truncation_of_stored | exact Hs].
  - intros Hx. pose proof (reads_functional _ _ _ _ _ Hx Hr) as <-.
    exists t. split; [exact Ht|].
    destruct Hlab as (n & Hn & ->).
    unfold stored, stored_as in Hst. rewrite Hst in Hn.
    vm_compute in Hn. inversion Hn; subst n. reflexivity.
Qed.

(** A world in which the throughput of one result file is 50000.9. *)
Definition fraction_fs : filesystem :=
  with_file sample_fs "bun_no_schema.json"
    (Contents (Some (summary_doc (VFloat 50000.9) (VFloat 0.002)))).

Definition fraction_state : state := (run fraction_fs).2.

(** C10. In a complete run, for every configured entry, a float throughput
    of its first file has its "No Schema" bar and that bar its label, and a
    float throughput of its second file its "With Schema" bar and label; the
    label is computed from the value truncated toward zero: it is the
    thousands-grouped integer [n] with [|n| <= |value| < |n| + 1] and the
    sign of the value. The same holds of every throughput bar that stands at
    a float. So 50000.9 is labelled 50,000, which is not how the nearest
    integer, 50001, is written. *)
Theorem throughput_label_truncates (fs : filesystem) (st : state) (i : nat)
    (name f0 f1 : string) :
  run fs = (inr tt, st) ->
  frameworks !! i = Some (name, [f0; f1]) ->
  truncated_in fs st f0 "No Schema" i /\
  truncated_in fs st f1 "With Schema" i /\
  Forall2 truncated_label (bars (ax1 st)) (texts (ax1 st)) /\
  (exists n, int (NFloat 50000.9) = inr n /\ format_comma n = "50,000") /\
  format_comma 50001 <> "50,000".
Proof.
  intros Hrun Hi.
  destruct (run_labelled fs st Hrun) as [Hrps _].
  destruct (entry_plotted fs st i name _ Hrun Hi)
    as (g0 & g1 & [r0 m0] & [r1 m1] & c1 & c2 & c3 & c4 & Hfiles & Hl0 & Hl1 &
        Hc1 & Hh1 & Hc2 & Hh2 & _).
  inversion Hfiles; subst g0 g1; clear Hfiles.
  destruct (load_inr_inv _ _ _ _ Hl0) as (a0 & Hr0 & _).
  destruct (load_inr_inv _ _ _ _ Hl1) as (a1 & Hr1 & _).
  cbn [fst] in Hh1, Hh2.
  split; [exact (truncated_in_series _ _ _ _ _ _ _ _ Hrps Hr0 Hc1 Hh1)|].
  split; [exact (truncated_in_series _ _ _ _ _ _ _ _ Hrps Hr1 Hc2 Hh2)|].
  split; [|split].
  - eapply Forall2_impl; [exact Hrps | exact rps_labelled_truncated].
  - exists 50000. split; vm_compute; reflexivity.
  - vm_compute. discriminate.
Qed.

Lemma throughput_label_truncates_witness :
  truncated_in fraction_fs fraction_state "bun_no_schema.json" "No Schema" 0 /\
  truncated_in fraction_fs fraction_state "bun_schema.json" "With Schema" 0 /\
  Forall2 truncated_label (bars (ax1 fraction_state))
    (texts (ax1 fraction_state)) /\
  (exists n, int (NFloat 50000.9) = inr n /\ format_comma n = "50,000") /\
  format_comma 50001 <> "50,000".
Proof.
  apply (throughput_label_truncates fraction_fs fraction_state 0 "Bun").
  - vm_compute. reflexivity.
  - reflexivity.
Defined.

(** ** The worked scenario *)

(** The JSON number [z], parsed as an [int] or as a [float]. *)
Definition is_number (v : value) (z : Z) : Prop :=
  v = VInt z \/ v = VFloat (float_of_lit z).

(** The bar stands at the integer [z], held as an [int64] or as a
    [float64]. *)
Definition stands_at (n : number) (z : Z) : Prop :=
  n = NInt z \/ n = NFloat (float_of_lit z).

(** C8. A framework whose no-schema file holds [requestsPerSec = 50000] and
    [average = 0.002], and whose schema file holds [requestsPerSec = 42000]
    and [average = 0.0025]: in a complete run its throughput bars stand at
    50000 and 42000 and are labelled 50,000 and 42,000; its latency bars
    stand at 2.0 and 2.5 and are labelled 2.00 and 2.50. *)
Theorem worked_scenario (fs : filesystem) (st : state) (i : nat)
    (name f0 f1 : string) (r0 r1 : value) :
  run fs = (inr tt, st) ->
  frameworks !! i = Some (name, [f0; f1]) ->
  reads fs f0 "requestsPerSec" r0 -> is_number r0 50000 ->
  reads fs f0 "average" (VFloat 0.002) ->
  reads fs f1 "requestsPerSec" r1 -> is_number r1 42000 ->
  reads fs f1 "average" (VFloat 0.0025) ->
  exists b0 b1 l0 l1 t0 t1 u0 u1,
    bar_of (ax1 st) "No Schema" i = Some b0 /\
    stored (rps_no_schema st) r0 (get_height b0) /\
    stands_at (get_height b0) 50000 /\
    label_of (ax1 st) "No Schema" i = Some t0 /\ text_s t0 = "50,000" /\
    bar_of (ax1 st) "With Schema" i = Some b1 /\
    stored (rps_schema st) r1 (get_height b1) /\
    stands_at (get_height b1) 42000 /\
    label_of (ax1 st) "With Schema" i = Some t1 /\ text_s t1 = "42,000" /\
    bar_of (ax2 st) "No Schema" i = Some l0 /\
    get_height l0 = NFloat 2 /\
    label_of (ax2 st) "No Schema" i = Some u0 /\ text_s u0 = "2.00" /\
    bar_of (ax2 st) "With Schema" i = Some l1 /\
    get_height l1 = NFloat 2.5 /\
    label_of (ax2 st) "With Schema" i = Some u1 /\ text_s u1 = "2.50".
Proof.
  intros Hrun Hi Hr0 Hn0 Ha0 Hr1 Hn1 Ha1.
  destruct (entry_plotted fs st i name _ Hrun Hi)
    as (g0 & g1 & [r0' m0] & [r1' m1] & c1 & c2 & c3 & c4 & Hfiles & Hl0 & Hl1 &
        Hc1 & Hh1 & Hc2 & Hh2 & Hc3 & Hh3 & Hc4 & Hh4).
  inversion Hfiles; subst g0 g1; clear Hfiles.
  destruct (load_inr_inv _ _ _ _ Hl0) as (a0 & Hr0' & Ha0' & Hm0).
  destruct (load_inr_inv _ _ _ _ Hl1) as (a1 & Hr1' & Ha1' & Hm1).
  pose proof (reads_functional _ _ _ _ _ Hr0 Hr0'); subst r0'.
  pose proof (reads_functional _ _ _ _ _ Hr1 Hr1'); subst r1'.
  pose proof (reads_functional _ _ _ _ _ Ha0 Ha0'); subst a0.
  pose proof (reads_functional _ _ _ _ _ Ha1 Ha1'); subst a1.
  cbn [fst snd] in Hh1, Hh2, Hh3, Hh4.
  vm_compute in Hm0, Hm1.
  inversion Hm0; subst m0; clear Hm0. inversion Hm1; subst m1; clear Hm1.
  assert (Hg3 : get_height c3 = NFloat 2).
  { unfold stored, stored_as in Hh3. rewrite Hh3. vm_compute. reflexivity. }
  assert (Hg4 : get_height c4 = NFloat 2.5).
  { unfold stored, stored_as in Hh4. rewrite Hh4. vm_compute. reflexivity. }
  assert (Hb0 : stands_at (get_height c1) 50000).
  { unfold stored, stored_as in Hh1. unfold stands_at.
    destruct Hn0 as [-> | ->]; cbn [whole] in Hh1.
    - destruct Hh1 as [_ Hg]. destruct (all_whole _);
        [left; exact Hg | right; rewrite Hg; vm_compute; reflexivity].
    - right. rewrite Hh1. vm_compute. reflexivity. }
  assert (Hb1 : stands_at (get_height c2) 42000).
  { unfold stored, stored_as in Hh2. unfold stands_at.
    destruct Hn1 as [-> | ->]; cbn [whole] in Hh2.
    - destruct Hh2 as [_ Hg]. destruct (all_whole _);
        [left; exact Hg | right; rewrite Hg; vm_compute; reflexivity].
    - right. rewrite Hh2. vm_compute. reflexivity. }
  destruct (run_labelled fs st Hrun) as [Hrps Hlat].
  destruct (label_of_bar _ _ _ _ _ Hrps Hc1) as (t0 & Ht0 & n0 & Hi0 & ->).
  destruct (label_of_bar _ _ _ _ _ Hrps Hc2) as (t1 & Ht1 & n1 & Hi1 & ->).
  destruct (label_of_bar _ _ _ _ _ Hlat Hc3) as (u0 & Hu0 & s0 & Hs0 & ->).
  destruct (label_of_bar _ _ _ _ _ Hlat Hc4) as (u1 & Hu1 & s1 & Hs1 & ->).
  rewrite Hg3 in Hs0. rewrite Hg4 in Hs1.
  vm_compute in Hs0, Hs1.
  inversion Hs0; subst s0; clear Hs0. inversion Hs1; subst s1; clear Hs1.
  assert (Hn0' : n0 = 50000).
  { destruct Hb0 as [Hg | Hg]; rewrite Hg in Hi0; vm_compute in Hi0;
      now inversion Hi0. }
  assert (Hn1' : n1 = 42000).
  { destruct Hb1 as [Hg | Hg]; rewrite Hg in Hi1; vm_compute in Hi1;
      now inversion Hi1. }
  subst n0 n1.
  eexists c1, c2, c3, c4, _, _, _, _.
  repeat split; try eassumption; try reflexivity.
Qed.

Lemma worked_scenario_witness :
  exists b0 b1 l0 l1 t0 t1 u0 u1,
    bar_of (ax1 sample_state) "No Schema" 0 = Some b0 /\
    stored (rps_no_schema sample_state) (VInt 50000) (get_height b0) /\
    stands_at (get_height b0) 50000 /\
    label_of (ax1 sample_state) "No Schema" 0 = Some t0 /\
    text_s t0 = "50,000" /\
    bar_of (ax1 sample_state) "With Schema" 0 = Some b1 /\
    stored (rps_schema sample_state) (VFloat 42000) (get_height b1) /\
    stands_at (get_height b1) 42000 /\
    label_of (ax1 sample_state) "With Schema" 0 = Some t1 /\
    text_s t1 = "42,000" /\
    bar_of (ax2 sample_state) "No Schema" 0 = Some l0 /\
    get_height l0 = NFloat 2 /\
    label_of (ax2 sample_state) "No Schema" 0 = Some u0 /\
    text_s u0 = "2.00" /\
    bar_of (ax2 sample_state) "With Schema" 0 = Some l1 /\
    get_height l1 = NFloat 2.5 /\
    label_of (ax2 sample_state) "With Schema" 0 = Some u1 /\
    text_s u1 = "2.50".
Proof.
  apply (worked_scenario sample_fs sample_state 0 "Bun"
           "bun_no_schema.json" "bun_schema.json").
  - vm_compute. reflexivity.
  - reflexivity.
  - eexists _, _. repeat split; vm_compute; reflexivity.
  - left. reflexivity.
  - eexists _, _. repeat split; vm_compute; reflexivity.
  - eexists _, _. repeat split; vm_compute; reflexivity.
  - right. vm_compute. reflexivity.
  - eexists _, _. repeat split; vm_compute; reflexivity.
Defined.

(** ** The geometry of the bars *)

(** Where a bar ends. *)
Definition right_edge (b : rect) : float :=
  PrimFloat.add (get_x b) (get_width b).

(** The x position of the tick of index [i]. *)
Definition tick (i : nat) : float := float_of_lit (Z.of_nat i).

(** Equal up to the rounding of a few float operations. *)
Definition tolerance : float := 0x1p-50%float.

Definition near (a b : float) : Prop :=
  PrimFloat.leb (PrimFloat.abs (PrimFloat.sub a b)) tolerance = true.

Definition midpoint (a b : float) : float :=
  PrimFloat.div (PrimFloat.add a b) 2%float.

Lemma arange_lookup (n i : nat) :
  (i < n)%nat -> arange n !! i = Some (Z.of_nat i).
Proof.
  intros Hi. unfold arange. rewrite lookup_map, lookup_seq_lt by exact Hi.
  reflexivity.
Qed.

(** The positions handed to [bar] for the two series. *)
Definition no_schema_positions : list float :=
  array_sub (arange (length frameworks)) half_width.

Definition schema_positions : list float :=
  array_add (arange (length frameworks)) half_width.

(** The widths that [bar] gives the rectangles of the two series: it takes
    them from the first position, as [(x0 + width) - x0]. The first is
    [width] itself, the second the float just below it. *)
Definition no_schema_width : float := Plt.bar_width no_schema_positions width.

Definition schema_width : float := Plt.bar_width schema_positions width.

Lemma no_schema_width_exact : no_schema_width = width.
Proof. vm_compute. reflexivity. Qed.

Lemma schema_width_below : schema_width = PrimFloat.next_down width.
Proof. vm_compute. reflexivity. Qed.

(** The two bars of a configured entry in a panel: each has the width of
    its series; the first starts half its width left of [tick - width / 2],
    the second half its width left of [tick + width / 2]. *)
Lemma pair_of_bars (fs : filesystem) (st : state) (i : nat)
    (entry : string * list string) (panel : axes) :
  run fs = (inr tt, st) ->
  frameworks !! i = Some entry ->
  panel = ax1 st \/ panel = ax2 st ->
  exists b0 b1,
    bar_of panel "No Schema" i = Some b0 /\
    bar_of panel "With Schema" i = Some b1 /\
    xticks panel !! i = Some (Z.of_nat i) /\
    get_width b0 = no_schema_width /\ get_width b1 = schema_width /\
    get_x b0 = PrimFloat.sub (PrimFloat.sub (tick i) half_width)
                             (PrimFloat.div no_schema_width (float_of_lit 2)) /\
    get_x b1 = PrimFloat.sub (PrimFloat.add (tick i) half_width)
                             (PrimFloat.div schema_width (float_of_lit 2)).
Proof.
  intros Hrun Hi Hpanel.
  destruct (run_completed fs st Hrun)
    as (rows & r1 & r2 & l1 & l2 & ts1 & ts2 & [Hrows H1 H2 H3 H4 _ _ Hst]).
  destruct (Forall2_lookup_l _ _ _ _ _ Hrows Hi) as (row & Hrow & _).
  assert (Hlt : (i < length frameworks)%nat) by now apply lookup_lt_Some in Hi.
  pose proof (arange_lookup _ _ Hlt) as Hx.
  destruct (bar_lookup _ _ _ _ _ _ _ H1 Hrow)
    as (c1 & x1 & Hc1 & Hx1 & _ & Hg1 & Hw1).
  destruct (bar_lookup _ _ _ _ _ _ _ H2 Hrow)
    as (c2 & x2 & Hc2 & Hx2 & _ & Hg2 & Hw2).
  destruct (bar_lookup _ _ _ _ _ _ _ H3 Hrow)
    as (c3 & x3 & Hc3 & Hx3 & _ & Hg3 & Hw3).
  destruct (bar_lookup _ _ _ _ _ _ _ H4 Hrow)
    as (c4 & x4 & Hc4 & Hx4 & _ & Hg4 & Hw4).
  fold no_schema_positions in Hx1, Hx3, Hg1, Hg3, Hw1, Hw3.
  fold schema_positions in Hx2, Hx4, Hg2, Hg4, Hw2, Hw4.
  fold no_schema_width in Hg1, Hg3, Hw1, Hw3.
  fold schema_width in Hg2, Hg4, Hw2, Hw4.
  unfold no_schema_positions, array_sub in Hx1, Hx3.
  unfold schema_positions, array_add in Hx2, Hx4.
  rewrite lookup_map, Hx in Hx1, Hx2, Hx3, Hx4.
  cbn in Hx1, Hx2, Hx3, Hx4.
  inversion Hx1; subst x1. inversion Hx2; subst x2.
  inversion Hx3; subst x3. inversion Hx4; subst x4.
  assert (Ht : xticks (ax1 st) !! i = Some (Z.of_nat i) /\
               xticks (ax2 st) !! i = Some (Z.of_nat i)).
  { subst st. split; exact Hx. }
  destruct Ht as [Ht1 Ht2].
  destruct Hpanel as [-> | ->].
  - exists c1, c2. subst st. repeat split; assumption.
  - exists c3, c4. subst st. repeat split; assumption.
Qed.

(** C7, as the code has it. In a complete run, in each panel, the two bars
    of every framework have the same width up to the last binary digit: the
    no-schema bar is [width] = 0.35 wide, the schema bar the float just
    below. They are adjacent: the no-schema bar ends and the schema bar
    begins at the framework's tick, so that the pair is centred on the tick
    (all of it up to float rounding, less than 1e-15). The gap, of 0.3, is
    between the pairs of neighbouring frameworks. *)
Theorem bar_pairs_adjacent (fs : filesystem) (st : state) (i : nat)
    (entry : string * list string) (panel : axes) :
  run fs = (inr tt, st) ->
  frameworks !! i = Some entry ->
  panel = ax1 st \/ panel = ax2 st ->
  exists b0 b1,
    bar_of panel "No Schema" i = Some b0 /\
    bar_of panel "With Schema" i = Some b1 /\
    xticks panel !! i = Some (Z.of_nat i) /\
    get_width b0 = width /\
    get_width b1 = PrimFloat.next_down width /\
    near (get_width b0) (get_width b1) /\
    near (right_edge b0) (get_x b1) /\
    near (right_edge b0) (tick i) /\
    near (get_x b1) (tick i) /\
    near (midpoint (get_x b0) (right_edge b1)) (tick i) /\
    forall next,
      frameworks !! S i = Some next ->
      exists b0', bar_of panel "No Schema" (S i) = Some b0' /\
                  near (PrimFloat.sub (get_x b0') (right_edge b1)) 0.3.
Proof.
  intros Hrun Hi Hpanel.
  destruct (pair_of_bars fs st i entry panel Hrun Hi Hpanel)
    as (b0 & b1 & Hb0 & Hb1 & Ht & Hw0 & Hw1 & Hx0 & Hx1).
  exists b0, b1.
  assert (Hlt : (i < 7)%nat) by now apply lookup_lt_Some in Hi.
  do 3 (split; [assumption|]).
  split; [rewrite Hw0; exact no_schema_width_exact|].
  split; [rewrite Hw1; exact schema_width_below|].
  unfold near, midpoint, right_edge. rewrite Hx0, Hx1, Hw0, Hw1.
  split; [vm_compute; reflexivity|].
  split; [|split; [|split; [|split]]].
  - do 7 (destruct i as [|i]; [vm_compute; reflexivity|]). lia.
  - do 7 (destruct i as [|i]; [vm_compute; reflexivity|]). lia.
  - do 7 (destruct i as [|i]; [vm_compute; reflexivity|]). lia.
  - do 7 (destruct i as [|i]; [vm_compute; reflexivity|]). lia.
  - intros next Hnext.
    destruct (pair_of_bars fs st (S i) next panel Hrun Hnext Hpanel)
      as (b0' & _ & Hb0' & _ & _ & Hw0' & _ & Hx0' & _).
    exists b0'. split; [exact Hb0'|]. rewrite Hx0'.
    assert (Hlt' : (S i < 7)%nat) by now apply lookup_lt_Some in Hnext.
    do 6 (destruct i as [|i]; [vm_compute; reflexivity|]). lia.
Qed.

Lemma bar_pairs_adjacent_witness :
  exists b0 b1,
    bar_of (ax2 sample_state) "No Schema" 2 = Some b0 /\
    bar_of (ax2 sample_state) "With Schema" 2 = Some b1 /\
    xticks (ax2 sample_state) !! 2%nat = Some 2 /\
    get_width b0 = width /\
    get_width b1 = PrimFloat.next_down width /\
    near (get_width b0) (get_width b1) /\
    near (right_edge b0) (get_x b1) /\
    near (right_edge b0) (tick 2) /\
    near (get_x b1) (tick 2) /\
    near (midpoint (get_x b0) (right_edge b1)) (tick 2) /\
    forall next,
      frameworks !! 3%nat = Some next ->
      exists b0', bar_of (ax2 sample_state) "No Schema" 3 = Some b0' /\
                  near (PrimFloat.sub (get_x b0') (right_edge b1)) 0.3.
Proof.
  apply (bar_pairs_adjacent sample_fs sample_state 2
           ("Encore", ["encore_no_schema.json"; "encore_schema.json"])).
  - vm_compute. reflexivity.
  - reflexivity.
  - right. reflexivity.
Defined.

(** C7, as the claim has it, fails: in the complete run of the sample
    world the schema bar of Fastify, the fifth framework, begins exactly
    where its no-schema bar ends, and the schema bar of Encore, the third,
    begins before its no-schema bar ends; there is no gap between the
    two. *)
Lemma pair_without_gap :
  exists b0 b1 c0 c1,
    run sample_fs = (inr tt, sample_state) /\
    frameworks !! 4%nat =
      Some ("Fastify", ["fastify_no_schema.json"; "fastify_schema.json"]) /\
    bar_of (ax1 sample_state) "No Schema" 4 = Some b0 /\
    bar_of (ax1 sample_state) "With Schema" 4 = Some b1 /\
    right_edge b0 = get_x b1 /\
    PrimFloat.ltb (right_edge b0) (get_x b1) = false /\
    bar_of (ax1 sample_state) "No Schema" 2 = Some c0 /\
    bar_of (ax1 sample_state) "With Schema" 2 = Some c1 /\
    PrimFloat.ltb (get_x c1) (right_edge c0) = true.
Proof.
  eexists _, _, _, _.
  split; [exact sample_run|].
  split; [reflexivity|].
  split; [vm_compute; reflexivity|].
  split; [vm_compute; reflexivity|].
  split; [vm_compute; reflexivity|].
  split; [vm_compute; reflexivity|].
  split; [vm_compute; reflexivity|].
  split; vm_compute; reflexivity.
Qed.

(** * Further properties of the script *)

(** ** Steps that leave the event log alone *)

(** A step that, however it ends, has done nothing to the outside world. *)
Definition silent {A : Type} (m : M A) : Prop :=
  forall st r st', m st = (r, st') -> events st' = events st.

(** A step that has done nothing to the outside world if it ends with an
    exception. *)
Definition quiet_failure {A : Type} (m : M A) : Prop :=
  forall st e st', m st = (inl e, st') -> events st' = events st.

Lemma bind_inl_inv {A B : Type} (m : M A) (k : A -> M B) st e st' :
  bind m k st = (inl e, st') ->
  m st = (inl e, st') \/
  exists a st1, m st = (inr a, st1) /\ k a st1 = (inl e, st').
Proof.
  unfold bind. destruct (m st) as [[e1|a] st1]; intros H.
  - left. now inversion H.
  - right. now exists a, st1.
Qed.

Lemma silent_ret {A : Type} (a : A) : silent (ret a).
Proof. intros st r st' H. now inversion H. Qed.

Lemma silent_lift {A : Type} (r : result A) : silent (lift r).
Proof. destruct r; intros st r' st' H; now inversion H. Qed.

Lemma silent_get : silent get.
Proof. intros st r st' H. now inversion H. Qed.

Lemma silent_set_ax1 (f : axes -> axes) : silent (set_ax1 f).
Proof. intros st r st' H. now inversion H. Qed.

Lemma silent_set_ax2 (f : axes -> axes) : silent (set_ax2 f).
Proof. intros st r st' H. now inversion H. Qed.

Lemma silent_subplots (size : Z * Z) : silent (Plt.subplots size).
Proof. intros st r st' H. now inversion H. Qed.

Lemma silent_bind {A B : Type} (m : M A) (k : A -> M B) :
  silent m -> (forall a, silent (k a)) -> silent (bind m k).
Proof.
  intros Hm Hk st r st'. unfold bind.
  destruct (m st) as [[e|a] st1] eqn:E; intros H.
  - inversion H; subst. exact (Hm _ _ _ E).
  - rewrite (Hk a _ _ _ H). exact (Hm _ _ _ E).
Qed.

Lemma silent_for_each {A : Type} (l : list A) (body : A -> M unit) :
  (forall a, silent (body a)) -> silent (for_each l body).
Proof.
  intros Hbody. induction l as [|a l IH]; cbn [for_each].
  - apply silent_ret.
  - apply silent_bind; [apply Hbody | intros _; exact IH].
Qed.

Lemma silent_bar (set_ax : (axes -> axes) -> M unit) xs heights w label :
  (forall f, silent (set_ax f)) ->
  silent (Plt.bar set_ax xs heights w label).
Proof.
  intros Hset. unfold Plt.bar.
  apply silent_bind; [apply silent_lift | intros rs].
  apply silent_bind; [apply Hset | intros _; apply silent_ret].
Qed.

Lemma silent_label_rps (bar : rect) : silent (label_rps bar).
Proof.
  unfold label_rps.
  apply silent_bind; [apply silent_lift | intros n; apply silent_set_ax1].
Qed.

Lemma silent_label_latency (bar : rect) : silent (label_latency bar).
Proof.
  unfold label_latency.
  apply silent_bind; [apply silent_lift | intros s; apply silent_set_ax2].
Qed.

Lemma quiet_bind {A B : Type} (m : M A) (k : A -> M B) :
  silent m -> (forall a, quiet_failure (k a)) -> quiet_failure (bind m k).
Proof.
  intros Hm Hk st e st' H.
  destruct (bind_inl_inv _ _ _ _ _ H) as [Hf | (a & st1 & Hs & Hf)].
  - exact (Hm _ _ _ Hf).
  - rewrite (Hk a _ _ _ Hf). exact (Hm _ _ _ Hs).
Qed.

Create HintDb silent.
#[local] Hint Resolve silent_ret silent_lift silent_get silent_set_ax1
  silent_set_ax2 silent_subplots silent_label_rps silent_label_latency
  : silent.

(** Whatever makes the rendering fail, it fails before anything is saved
    or printed. *)
Lemma render_quiet_failure : quiet_failure render.
Proof.
  unfold render.
  apply quiet_bind; [auto with silent | intros _].
  apply quiet_bind; [auto with silent | intros st0]. cbv zeta.
  do 2 (apply quiet_bind;
        [apply silent_bar; auto with silent | intros ?]).
  do 5 (apply quiet_bind; [auto with silent | intros _]).
  apply quiet_bind;
    [apply silent_for_each; intros ?; apply silent_for_each;
     auto with silent | intros _].
  do 2 (apply quiet_bind;
        [apply silent_bar; auto with silent | intros ?]).
  do 5 (apply quiet_bind; [auto with silent | intros _]).
  apply quiet_bind;
    [apply silent_for_each; intros ?; apply silent_for_each;
     auto with silent | intros _].
  intros st e st' H.
  cbv beta iota delta [bind ret get emit modify Plt.tight_layout Plt.savefig]
    in H.
  discriminate H.
Qed.

(** ** What a run does to the outside world *)

(** The events of a run that ended with an exception: attempts to open the
    first [k] configured files, for some [k]. *)
Lemma failed_run_events fs e st :
  run fs = (inl e, st) ->
  exists k, events st = map EOpen (take k (files_of frameworks)).
Proof.
  intros H. unfold run, script in H.
  destruct (collect_spec fs frameworks frameworks_well_formed initial)
    as [(rows & _ & Hrun) | (k & e' & st1 & _ & Hrun & Hev)].
  - destruct (bind_inl_inv _ _ _ _ _ H) as [Hf | (a & st1 & Hs & Hf)];
      [rewrite Hrun in Hf; discriminate Hf|].
    rewrite Hrun in Hs. inversion Hs; subst st1; clear Hs.
    rewrite (render_quiet_failure _ _ _ Hf).
    exists (length (files_of frameworks)). now rewrite firstn_all.
  - rewrite (bind_inl _ _ _ _ _ Hrun) in H. inversion H; subst.
    exists (S k). exact Hev.
Qed.

(** X1. All or nothing: a run that ends with an exception, whatever the
    exception and wherever it is raised (while reading the files, by the bar
    calls or while the labels are formatted), has only opened input files, a
    first part of the configured ones in their order; it has neither
    written the image nor printed the confirmation. *)
Theorem failed_run_writes_nothing (fs : filesystem) (e : exn) (st : state) :
  run fs = (inl e, st) ->
  Forall is_open (events st) /\
  exists k, events st = map EOpen (take k (files_of frameworks)).
Proof.
  intros H. destruct (failed_run_events fs e st H) as [k Hk].
  split; [|now exists k]. rewrite Hk. apply opens_only.
Qed.

(** A world in which one result file reports a throughput that is not a
    number: every file loads, and the run fails while the throughput labels
    are formatted. *)
Definition nan_rps_fs : filesystem :=
  with_file sample_fs "encore_schema.json"
    (Contents (Some (summary_doc (VFloat PrimFloat.nan) (VFloat 0.0031)))).

Lemma failed_run_writes_nothing_witness :
  Forall is_open (events (run nan_rps_fs).2) /\
  exists k,
    events (run nan_rps_fs).2 = map EOpen (take k (files_of frameworks)).
Proof.
  apply (failed_run_writes_nothing nan_rps_fs ValueError).
  vm_compute. reflexivity.
Defined.

(** X2. A complete run opens every configured file once, in the order of
    the configuration and, within an entry, the no-schema file before the
    schema file; then it saves one image, [framework_comparison.png] at 300
    dpi with a tight bounding box, of the 12 by 10 figure with the two
    panels as they are at the end; then it prints the confirmation line.
    It does nothing else. *)
Theorem complete_run_events (fs : filesystem) (st : state) :
  run fs = (inr tt, st) ->
  events st
  = map EOpen (files_of frameworks)
    ++ [ESavefig "framework_comparison.png" 300 "tight" (12, 10)
          (ax1 st) (ax2 st);
        EPrint "Chart has been saved as 'framework_comparison.png'"].
Proof.
  intros Hrun.
  destruct (run_completed fs st Hrun)
    as (rows & b1 & b2 & l1 & l2 & ts1 & ts2 & [_ _ _ _ _ _ _ Hst]).
  subst st. reflexivity.
Qed.

Lemma complete_run_events_witness :
  events sample_state
  = map EOpen (files_of frameworks)
    ++ [ESavefig "framework_comparison.png" 300 "tight" (12, 10)
          (ax1 sample_state) (ax2 sample_state);
        EPrint "Chart has been saved as 'framework_comparison.png'"].
Proof.
  apply (complete_run_events sample_fs sample_state).
  vm_compute. reflexivity.
Defined.

(** X3. The first failure is the one reported: if the configured file of
    index [k] in reading order is the first that cannot be loaded, the run
    ends with the exception that loading this file raises (for a missing
    file, [FileNotFoundError] with its name), after opening the files up to
    and including it and no other. *)
Theorem first_failure_reported (fs : filesystem) (k : nat) (f : string)
    (e : exn) :
  files_of frameworks !! k = Some f ->
  load fs f = inl e ->
  (forall j g, (j < k)%nat -> files_of frameworks !! j = Some g ->
               exists v, load fs g = inr v) ->
  exists st,
    run fs = (inl e, st) /\
    events st = map EOpen (take (S k) (files_of frameworks)) /\
    (fs f = NoFile -> e = FileNotFoundError f).
Proof.
  intros Hk Hbad Hbefore.
  destruct (collect_spec fs frameworks frameworks_well_formed initial)
    as [(rows & Hrows & _) |
        (k' & e' & st & [(g & Hk' & Hg) Hbefore'] & Hrun & Hev)].
  - assert (Hin : In f (files_of frameworks)).
    { apply list_elem_of_In. now apply list_elem_of_lookup_2 in Hk. }
    destruct (all_loaded _ _ _ Hrows f Hin) as [v Hv]. congruence.
  - assert (k' = k) as ->.
    { destruct (Nat.lt_trichotomy k' k) as [Hlt|[Heq|Hgt]]; [|exact Heq|].
      - destruct (Hbefore k' g Hlt Hk') as [v Hv]. congruence.
      - destruct (Hbefore' k f Hgt Hk) as [v Hv]. congruence. }
    assert (g = f) as -> by congruence.
    assert (e' = e) as -> by congruence.
    exists st. split; [now apply run_collect_failed|]. split; [exact Hev|].
    intros Hno. unfold load in Hbad. rewrite Hno in Hbad. now inversion Hbad.
Qed.

Lemma first_failure_reported_witness :
  exists st,
    run (with_file sample_fs "elysia_schema.json" NoFile)
    = (inl (FileNotFoundError "elysia_schema.json"), st) /\
    events st = map EOpen (take 4 (files_of frameworks)) /\
    (with_file sample_fs "elysia_schema.json" NoFile "elysia_schema.json"
     = NoFile ->
     FileNotFoundError "elysia_schema.json"
     = FileNotFoundError "elysia_schema.json").
Proof.
  apply (first_failure_reported
           (with_file sample_fs "elysia_schema.json" NoFile) 3
           "elysia_schema.json" (FileNotFoundError "elysia_schema.json")).
  - reflexivity.
  - reflexivity.
  - intros j g Hj Hg.
    destruct j as [|[|[|j]]]; [| | |lia];
      cbn in Hg; inversion Hg; subst g; eexists; vm_compute; reflexivity.
Defined.

(** ** Values that cannot be plotted *)

(** Every configured file is the first or the second file of an entry. *)
Lemma files_of_entry (cfg : list (string * list string)) (f : string) :
  well_formed cfg -> In f (files_of cfg) ->
  exists i name f0 f1,
    cfg !! i = Some (name, [f0; f1]) /\ (f = f0 \/ f = f1).
Proof.
  induction 1 as [|[name files] cfg Hlen _ IH]; intros Hin; [destruct Hin|].
  cbn in Hlen. destruct files as [|f0 [|f1 [|? ?]]]; try discriminate Hlen.
  unfold files_of in Hin. cbn in Hin.
  destruct Hin as [Heq|[Heq|Hin]].
  - exists 0%nat, name, f0, f1. split; [reflexivity | now left].
  - exists 0%nat, name, f0, f1. split; [reflexivity | now right].
  - destruct (IH Hin) as (i & n & g0 & g1 & Hi & Hf).
    now exists (S i), n, g0, g1.
Qed.

(** In a complete run every throughput bar stands at an integer or at a
    finite float: [int] has accepted it. *)
Lemma labelled_bar_finite (bar : rect) (t : text) (x : float) :
  rps_labelled bar t -> get_height bar = NFloat x -> finite x.
Proof.
  intros (n & Hn & _) Hx. rewrite Hx in Hn. cbn in Hn. unfold finite.
  destruct (Prim2SF x); try discriminate Hn; exact I.
Qed.

(** A float that is not finite is plotted at a float that is not finite. *)
Lemma stored_float_finite (series : list value) (x y : float) :
  stored series (VFloat x) (NFloat y) -> finite y -> finite x.
Proof.
  unfold stored, stored_as, finite. intros H. inversion H; subst y.
  rewrite zero_add_sub_zero. now destruct (Prim2SF x).
Qed.

(** A float is plotted at a float. *)
Lemma stored_float (series : list value) (x : float) (n : number) :
  stored series (VFloat x) n -> exists y, n = NFloat y.
Proof. unfold stored, stored_as. intros ->. now eexists. Qed.

(** X5. A throughput that is a NaN or an infinity in any configured file
    makes the run end with an exception, and nothing is written: either an
    earlier step fails, or [int(height)] refuses the value when the
    throughput labels are formatted, after all the files have been read. *)
Theorem nonfinite_throughput_aborts (fs : filesystem) (f : string)
    (x : float) :
  In f (files_of frameworks) ->
  reads fs f "requestsPerSec" (VFloat x) ->
  ~ finite x ->
  exists e st, run fs = (inl e, st) /\ Forall is_open (events st).
Proof.
  intros Hin Hread Hnf.
  destruct (run fs) as [[e|[]] st] eqn:Hrun.
  - exists e, st. split; [reflexivity|].
    destruct (failed_run_events fs e st Hrun) as [k ->]. apply opens_only.
  - exfalso. apply Hnf.
    destruct (files_of_entry _ f frameworks_well_formed Hin)
      as (i & name & f0 & f1 & Hi & Hf).
    destruct (entry_plotted fs st i name _ Hrun Hi)
      as (g0 & g1 & [r0 m0] & [r1 m1] & c1 & c2 & c3 & c4 & Hfiles & Hl0 &
          Hl1 & Hc1 & Hn1 & Hc2 & Hn2 & _).
    inversion Hfiles; subst g0 g1; clear Hfiles.
    destruct (load_inr_inv _ _ _ _ Hl0) as (a0 & Hr0 & _).
    destruct (load_inr_inv _ _ _ _ Hl1) as (a1 & Hr1 & _).
    destruct (run_labelled fs st Hrun) as [Hrps _].
    cbn [fst] in Hn1, Hn2.
    destruct Hf as [-> | ->].
    + pose proof (reads_functional _ _ _ _ _ Hread Hr0) as <-.
      destruct (stored_float _ _ _ Hn1) as [y Hy]. rewrite Hy in Hn1.
      destruct (label_of_bar _ _ _ _ _ Hrps Hc1) as (t & _ & Ht).
      apply (stored_float_finite _ _ _ Hn1).
      now apply (labelled_bar_finite c1 t).
    + pose proof (reads_functional _ _ _ _ _ Hread Hr1) as <-.
      destruct (stored_float _ _ _ Hn2) as [y Hy]. rewrite Hy in Hn2.
      destruct (label_of_bar _ _ _ _ _ Hrps Hc2) as (t & _ & Ht).
      apply (stored_float_finite _ _ _ Hn2).
      now apply (labelled_bar_finite c2 t).
Qed.

Lemma nonfinite_throughput_aborts_witness :
  exists e st,
    run nan_rps_fs = (inl e, st) /\ Forall is_open (events st).
Proof.
  apply (nonfinite_throughput_aborts nan_rps_fs "encore_schema.json"
           PrimFloat.nan).
  - cbn. tauto.
  - eexists _, _. repeat split; vm_compute; reflexivity.
  - vm_compute. exact (fun H => H).
Defined.

(** X6. An average latency that is present but is [null] or an object
    cannot be multiplied by 1000: loading the file raises [TypeError], and
    the run ends with the exception of the first file that cannot be loaded
    ([TypeError] if it is this one); no file after it is opened and nothing
    is written. *)
Theorem null_average_aborts (fs : filesystem) (f : string) (r a : value) :
  In f (files_of frameworks) ->
  reads fs f "requestsPerSec" r ->
  reads fs f "average" a ->
  a = VNone \/ (exists m, a = VDict m) ->
  load fs f = inl TypeError /\
  exists k g e st,
    run fs = (inl e, st) /\
    files_of frameworks !! k = Some g /\
    load fs g = inl e /\
    (g = f -> e = TypeError) /\
    events st = map EOpen (take (S k) (files_of frameworks)) /\
    (forall i, files_of frameworks !! i = Some f -> (k <= i)%nat) /\
    Forall is_open (events st).
Proof.
  intros Hin (d' & s' & Hd' & Hs' & Hr) (d & s & Hd & Hs & Ha) Hnull.
  assert (d' = d) as -> by congruence.
  assert (s' = s) as -> by congruence.
  assert (Hload : load fs f = inl TypeError).
  { unfold load. rewrite Hd, Hs, Hr, Ha.
    destruct Hnull as [-> | [m ->]]; reflexivity. }
  split; [exact Hload|].
  destruct (run_aborts fs f TypeError Hin Hload)
    as (k & g & e & st & Hrun & Hk & Hg & Hev & Hle).
  exists k, g, e, st. repeat split; try assumption.
  - intros ->. congruence.
  - rewrite Hev. apply opens_only.
Qed.

(** A result file whose average latency is [null]. *)
Definition doc_null_average : value := summary_doc (VFloat 31250.9) VNone.

Lemma null_average_aborts_witness :
  let fs := with_file sample_fs "bun_schema.json"
              (Contents (Some doc_null_average)) in
  load fs "bun_schema.json" = inl TypeError /\
  exists k g e st,
    run fs = (inl e, st) /\
    files_of frameworks !! k = Some g /\
    load fs g = inl e /\
    (g = "bun_schema.json" -> e = TypeError) /\
    events st = map EOpen (take (S k) (files_of frameworks)) /\
    (forall i, files_of frameworks !! i = Some "bun_schema.json" ->
               (k <= i)%nat) /\
    Forall is_open (events st).
Proof.
  apply (null_average_aborts
           (with_file sample_fs "bun_schema.json"
              (Contents (Some doc_null_average)))
           "bun_schema.json" (VFloat 31250.9) VNone).
  - cbn. tauto.
  - eexists _, _. repeat split; vm_compute; reflexivity.
  - eexists _, _. repeat split; vm_compute; reflexivity.
  - left. reflexivity.
Defined.

(** ** The series and the shape of the chart *)

Lemma Forall2_map_r {A B C : Type} (P : A -> C -> Prop) (Q : A -> B -> Prop)
    (f : B -> C) (l : list A) (k : list B) :
  (forall a b, Q a b -> P a (f b)) ->
  Forall2 Q l k -> Forall2 P l (map f k).
Proof. intros HPQ. induction 1; cbn; constructor; auto. Qed.

(** X7. At the end of a complete run the five lists are as the aggregation
    pass built them, index by index in the order of the configuration,
    nothing sorted, dropped or merged: the names are the configured names;
    the two throughput lists hold what the first and the second file of
    each entry have at [summary.requestsPerSec]; the two latency lists hold
    their [summary.average] times 1000. *)
Theorem series_hold_file_values (fs : filesystem) (st : state) :
  run fs = (inr tt, st) ->
  framework_names st = map fst frameworks /\
  Forall2 (fun entry v => exists f0,
             entry.2 !! 0%nat = Some f0 /\ reads fs f0 "requestsPerSec" v)
          frameworks (rps_no_schema st) /\
  Forall2 (fun entry v => exists f1,
             entry.2 !! 1%nat = Some f1 /\ reads fs f1 "requestsPerSec" v)
          frameworks (rps_schema st) /\
  Forall2 (fun entry v => exists f0 a,
             entry.2 !! 0%nat = Some f0 /\ reads fs f0 "average" a /\
             mul_int a 1000 = inr v)
          frameworks (latency_no_schema st) /\
  Forall2 (fun entry v => exists f1 a,
             entry.2 !! 1%nat = Some f1 /\ reads fs f1 "average" a /\
             mul_int a 1000 = inr v)
          frameworks (latency_schema st).
Proof.
  intros Hrun.
  destruct (run_completed fs st Hrun)
    as (rows & b1 & b2 & l1 & l2 & ts1 & ts2 & [Hrows _ _ _ _ _ _ Hst]).
  subst st. unfold rendered, after_collect, initial.
  cbn [rps_no_schema rps_schema latency_no_schema latency_schema
       framework_names app].
  split; [reflexivity|].
  repeat split;
    (eapply Forall2_map_r; [|exact Hrows]);
    intros [name files] [[r0 m0] [r1 m1]] (f0 & f1 & Hf & H0 & H1);
    cbn in Hf, H0, H1 |- *; subst files;
    destruct (load_inr_inv _ _ _ _ H0) as (a0 & Hr0 & Ha0 & Hm0);
    destruct (load_inr_inv _ _ _ _ H1) as (a1 & Hr1 & Ha1 & Hm1);
    eauto 6.
Qed.

Lemma series_hold_file_values_witness :
  framework_names sample_state = map fst frameworks /\
  Forall2 (fun entry v => exists f0,
             entry.2 !! 0%nat = Some f0 /\
             reads sample_fs f0 "requestsPerSec" v)
          frameworks (rps_no_schema sample_state) /\
  Forall2 (fun entry v => exists f1,
             entry.2 !! 1%nat = Some f1 /\
             reads sample_fs f1 "requestsPerSec" v)
          frameworks (rps_schema sample_state) /\
  Forall2 (fun entry v => exists f0 a,
             entry.2 !! 0%nat = Some f0 /\ reads sample_fs f0 "average" a /\
             mul_int a 1000 = inr v)
          frameworks (latency_no_schema sample_state) /\
  Forall2 (fun entry v => exists f1 a,
             entry.2 !! 1%nat = Some f1 /\ reads sample_fs f1 "average" a /\
             mul_int a 1000 = inr v)
          frameworks (latency_schema sample_state).
Proof.
  apply (series_hold_file_values sample_fs sample_state).
  vm_compute. reflexivity.
Defined.

(** X8. The shape of the chart of a complete run. Each panel holds exactly
    two bar containers, "No Schema" first and "With Schema" second, each
    with one bar per configured framework, and one value label per bar;
    its legend is shown. The first panel is "Requests per Second", the
    second "Average Latency (ms)", under the titles of the script. *)
Theorem chart_shape (fs : filesystem) (st : state) :
  run fs = (inr tt, st) ->
  (exists b0 b1,
     containers (ax1 st) = [("No Schema", b0); ("With Schema", b1)] /\
     length b0 = length frameworks /\ length b1 = length frameworks) /\
  (exists l0 l1,
     containers (ax2 st) = [("No Schema", l0); ("With Schema", l1)] /\
     length l0 = length frameworks /\ length l1 = length frameworks) /\
  length (texts (ax1 st)) = (2 * length frameworks)%nat /\
  length (texts (ax2 st)) = (2 * length frameworks)%nat /\
  legend (ax1 st) = true /\ legend (ax2 st) = true /\
  ylabel (ax1 st) = "Requests per Second" /\
  ylabel (ax2 st) = "Average Latency (ms)" /\
  title (ax1 st)
  = "Framework Performance Comparison - Requests per Second (Higher is Better)"
  /\
  title (ax2 st)
  = "Framework Performance Comparison - Average Latency (Lower is Better)".
Proof.
  intros Hrun.
  destruct (run_completed fs st Hrun)
    as (rows & b0 & b1 & l0 & l1 & ts1 & ts2 &
        [Hrows H1 H2 H3 H4 Ht1 Ht2 Hst]).
  destruct (bar_rects_spec _ _ _ _ H1) as (_ & L1 & _).
  destruct (bar_rects_spec _ _ _ _ H2) as (_ & L2 & _).
  destruct (bar_rects_spec _ _ _ _ H3) as (_ & L3 & _).
  destruct (bar_rects_spec _ _ _ _ H4) as (_ & L4 & _).
  apply Forall2_length in Hrows, Ht1, Ht2.
  rewrite length_map in L1, L2, L3, L4.
  rewrite length_app in Ht1, Ht2.
  subst st. cbn [rendered ax1 ax2 throughput_axes latency_axes containers
                 texts legend ylabel title].
  split; [exists b0, b1; repeat split; congruence|].
  split; [exists l0, l1; repeat split; congruence|].
  repeat split; lia.
Qed.

Lemma chart_shape_witness :
  (exists b0 b1,
     containers (ax1 sample_state)
     = [("No Schema", b0); ("With Schema", b1)] /\
     length b0 = length frameworks /\ length b1 = length frameworks) /\
  (exists l0 l1,
     containers (ax2 sample_state)
     = [("No Schema", l0); ("With Schema", l1)] /\
     length l0 = length frameworks /\ length l1 = length frameworks) /\
  length (texts (ax1 sample_state)) = (2 * length frameworks)%nat /\
  length (texts (ax2 sample_state)) = (2 * length frameworks)%nat /\
  legend (ax1 sample_state) = true /\ legend (ax2 sample_state) = true /\
  ylabel (ax1 sample_state) = "Requests per Second" /\
  ylabel (ax2 sample_state) = "Average Latency (ms)" /\
  title (ax1 sample_state)
  = "Framework Performance Comparison - Requests per Second (Higher is Better)"
  /\
  title (ax2 sample_state)
  = "Framework Performance Comparison - Average Latency (Lower is Better)".
Proof.
  apply (chart_shape sample_fs sample_state).
  vm_compute. reflexivity.
Defined.

(** ** Where the labels are *)

(** A label anchored by the middle of its lower edge at the middle of the
    upper edge of a bar. *)
Definition placed_on (bar : rect) (t : text) : Prop :=
  text_x t = label_x bar /\ text_y t = get_height bar /\
  text_ha t = "center" /\ text_va t = "bottom".

Lemma run_labels_placed fs st (panel : axes) :
  run fs = (inr tt, st) ->
  panel = ax1 st \/ panel = ax2 st ->
  Forall2 placed_on (bars panel) (texts panel).
Proof.
  intros Hrun Hpanel. destruct (run_labelled fs st Hrun) as [H1 H2].
  destruct Hpanel as [-> | ->].
  - eapply Forall2_impl; [exact H1|].
    intros bar t (n & _ & ->). now repeat split.
  - eapply Forall2_impl; [exact H2|].
    intros bar t (s & _ & ->). now repeat split.
Qed.

(** X9. In a complete run, in each panel, the value label of each of the
    two bars of every framework is anchored by the middle of its lower edge
    ([ha] center, [va] bottom) at the height of the bar and at the bar's
    middle, [get_x + get_width / 2]; that is, up to float rounding, at
    [tick - width / 2] for the no-schema bar and at [tick + width / 2] for
    the schema bar, the positions given to the bar calls. *)
Theorem labels_top_centre (fs : filesystem) (st : state) (i : nat)
    (entry : string * list string) (panel : axes) :
  run fs = (inr tt, st) ->
  frameworks !! i = Some entry ->
  panel = ax1 st \/ panel = ax2 st ->
  exists b0 b1 t0 t1,
    bar_of panel "No Schema" i = Some b0 /\
    label_of panel "No Schema" i = Some t0 /\
    placed_on b0 t0 /\
    near (text_x t0) (PrimFloat.sub (tick i) half_width) /\
    bar_of panel "With Schema" i = Some b1 /\
    label_of panel "With Schema" i = Some t1 /\
    placed_on b1 t1 /\
    near (text_x t1) (PrimFloat.add (tick i) half_width).
Proof.
  intros Hrun Hi Hpanel.
  destruct (pair_of_bars fs st i entry panel Hrun Hi Hpanel)
    as (b0 & b1 & Hb0 & Hb1 & _ & Hw0 & Hw1 & Hx0 & Hx1).
  pose proof (run_labels_placed fs st panel Hrun Hpanel) as Hall.
  destruct (label_of_bar _ _ _ _ _ Hall Hb0) as (t0 & Ht0 & Hp0).
  destruct (label_of_bar _ _ _ _ _ Hall Hb1) as (t1 & Ht1 & Hp1).
  exists b0, b1, t0, t1.
  assert (Hlt : (i < 7)%nat) by now apply lookup_lt_Some in Hi.
  repeat split; try assumption; try apply Hp0; try apply Hp1.
  - destruct Hp0 as (-> & _). unfold near, label_x. rewrite Hx0, Hw0.
    do 7 (destruct i as [|i]; [vm_compute; reflexivity|]). lia.
  - destruct Hp1 as (-> & _). unfold near, label_x. rewrite Hx1, Hw1.
    do 7 (destruct i as [|i]; [vm_compute; reflexivity|]). lia.
Qed.

Lemma labels_top_centre_witness :
  exists b0 b1 t0 t1,
    bar_of (ax1 sample_state) "No Schema" 5 = Some b0 /\
    label_of (ax1 sample_state) "No Schema" 5 = Some t0 /\
    placed_on b0 t0 /\
    near (text_x t0) (PrimFloat.sub (tick 5) half_width) /\
    bar_of (ax1 sample_state) "With Schema" 5 = Some b1 /\
    label_of (ax1 sample_state) "With Schema" 5 = Some t1 /\
    placed_on b1 t1 /\
    near (text_x t1) (PrimFloat.add (tick 5) half_width).
Proof.
  apply (labels_top_centre sample_fs sample_state 5
           ("Fastify v5", ["fastify-v5_no_schema.json"; "fastify-v5_schema.json"])).
  - vm_compute. reflexivity.
  - reflexivity.
  - left. reflexivity.
Defined.

(** ** Reading a throughput label back *)

(** The label with its commas dropped. *)
Definition strip_commas (s : string) : string :=
  string_of_list_ascii
    (List.filter (fun c => negb (Ascii.eqb c ","%char))
       (list_ascii_of_string s)).

(** The integer that a label denotes: the decimal numeral left when the
    commas are dropped. *)
Definition read_label (s : string) : option Z :=
  option_map Z.of_int (NilZero.int_of_string (strip_commas s)).

Lemma digit_not_comma (c : ascii) :
  is_digit c -> negb (Ascii.eqb c ","%char) = true.
Proof.
  unfold is_digit. intros Hc. destruct (Ascii.eqb_spec c ","%char) as [->|];
    [|reflexivity].
  vm_compute in Hc. lia.
Qed.

Lemma filter_digits (l : list ascii) :
  Forall is_digit l ->
  List.filter (fun c => negb (Ascii.eqb c ","%char)) l = l.
Proof.
  induction 1 as [|c l Hc _ IH]; cbn; [reflexivity|].
  now rewrite (digit_not_comma c Hc), IH.
Qed.

Lemma filter_groups (gs : list (list ascii)) :
  Forall is_digit (concat gs) ->
  List.filter (fun c => negb (Ascii.eqb c ","%char))
    (flat_map (fun g => ","%char :: g) gs)
  = concat gs.
Proof.
  induction gs as [|g gs IH]; cbn; intros H; [reflexivity|].
  apply Forall_app in H. destruct H as [Hg Hgs].
  now rewrite List.filter_app, (filter_digits g Hg), IH.
Qed.

Lemma strip_commas_format_comma (z : Z) :
  strip_commas (format_comma z) = NilZero.string_of_int (Z.to_int z).
Proof.
  destruct (format_comma_grouped z)
    as (s & (g0 & gs & Hds & _ & _ & ->) & _ & ->).
  unfold strip_commas. rewrite list_ascii_of_string_of_list_ascii.
  pose proof (digits_are_digits (Z.abs_N z)) as Hd. rewrite Hds in Hd.
  apply Forall_app in Hd. destruct Hd as [Hg0 Hgs].
  rewrite !List.filter_app, (filter_digits g0 Hg0), (filter_groups gs Hgs).
  rewrite <- Hds.
  destruct z as [|p|p]; cbn [Z.ltb Z.compare sign_chars List.filter app].
  - apply string_of_list_ascii_of_string.
  - apply string_of_list_ascii_of_string.
  - cbn. f_equal. apply string_of_list_ascii_of_string.
Qed.

(** X10. A throughput label can be read back: dropping the commas of
    [format(n, ",")] leaves the decimal numeral of [n], sign included, so
    the label denotes exactly the integer that was formatted, and two
    different integers never get the same label. *)
Theorem throughput_label_round_trip (z z' : Z) :
  read_label (format_comma z) = Some z /\
  (format_comma z = format_comma z' -> z = z').
Proof.
  assert (Hread : forall n, read_label (format_comma n) = Some n).
  { intros n. unfold read_label. rewrite strip_commas_format_comma.
    rewrite NilZero.isi.
    - cbn. now rewrite DecimalZ.of_to.
    - destruct n; cbn; try discriminate.
      intros H. inversion H as [Hp].
      now apply DecimalPos.Unsigned.to_uint_nonnil in Hp.
    - destruct n; cbn; try discriminate.
      intros H. inversion H as [Hp].
      now apply DecimalPos.Unsigned.to_uint_nonnil in Hp. }
  split; [apply Hread|].
  intros Heq. pose proof (Hread z) as Hz. rewrite Heq, Hread in Hz.
  now inversion Hz.
Qed.
